(** * scrapper_san_pablo.py: UPC resolution and price extraction

    A shallow embedding of the scraping core of [scrapper_san_pablo.py]:
    the helpers [num], [money], [clean_digits], the identifier match
    [upc_matches], the REST clients [OCC] and [Cart], and the per-identifier
    loop of [main].

    Python values are the values [json.load] produces.  A [str] is modelled
    on the Latin-1 range: an [ascii] is a code point below 256, on which the
    regular-expression class [\d] is exactly [0-9].  Floating point and the
    [repr] of containers belong to the Python runtime and are taken as
    interfaces ([PyFloat], [PyRepr]); the e-commerce platform behind the
    browsing context is an interface too ([Platform]): an arbitrary state
    machine answering HTTP requests, possibly by raising. *)

From Stdlib Require Import List String Ascii ZArith Lia Bool DecimalString QArith.
From Stdlib Require Import Floats.SpecFloat.
Import ListNotations.
Open Scope string_scope.
Open Scope Z_scope.

Set Implicit Arguments.
Set Warnings "-register-all".

(** ** Exceptions *)

Record exn := Exn { exn_class : string; exn_msg : string }.

(** [str(e)], as interpolated by [f"Error general: {e}"]. *)
Definition exn_str (e : exn) : string := exn_msg e.

Inductive exc (A : Type) : Type :=
| Ok (a : A)
| Raise (e : exn).
Arguments Ok {A} a.
Arguments Raise {A} e.

Definition exc_bind {A B} (m : exc A) (k : A -> exc B) : exc B :=
  match m with
  | Ok a => k a
  | Raise e => Raise e
  end.

(** [try: m except Exception: h] *)
Definition exc_try {A} (m : exc A) (h : exn -> exc A) : exc A :=
  match m with
  | Ok a => Ok a
  | Raise e => h e
  end.

Declare Scope exc_scope.
Delimit Scope exc_scope with exc.
Notation "x <- m ;; k" := (exc_bind m (fun x => k))
  (at level 61, m at next level, right associativity) : exc_scope.

(** ** The float part of the Python runtime *)

Class PyFloat := {
  float : Type;
  (** [float(n)] for an int; [None] is [OverflowError]. *)
  float_of_int : Z -> option float;
  (** [float(s)] for a str; [None] is [ValueError]. *)
  float_of_str : string -> option float;
  (** [bool(f)] *)
  float_truth : float -> bool;
  float_sub : float -> float -> float;
  float_ltb : float -> float -> bool;
  (** the literal [1e-9] *)
  float_1e_9 : float;
  (** [f"{v:.2f}"] *)
  float_fmt2 : float -> string;
  (** [str(f)] *)
  float_repr : float -> string
}.

(** ** Values *)

Inductive value {PF : PyFloat} : Type :=
| VNone
| VBool (b : bool)
| VInt (z : Z)
| VFloat (f : float)
| VStr (s : string)
| VList (l : list value)
| VDict (d : list (string * value)).

(** [repr] of a list or a dict. *)
Class PyRepr {PF : PyFloat} := {
  container_repr : value -> string
}.

Section Python.
Context {PF : PyFloat} {PR : PyRepr}.

Definition type_name (v : value) : string :=
  match v with
  | VNone => "NoneType"
  | VBool _ => "bool"
  | VInt _ => "int"
  | VFloat _ => "float"
  | VStr _ => "str"
  | VList _ => "list"
  | VDict _ => "dict"
  end.

Definition AttributeError (v : value) (attr : string) : exn :=
  Exn "AttributeError"
      ("'" ++ type_name v ++ "' object has no attribute '" ++ attr ++ "'").

Definition NotIterable (v : value) : exn :=
  Exn "TypeError" ("'" ++ type_name v ++ "' object is not iterable").

Definition NotSubscriptable (v : value) : exn :=
  Exn "TypeError" ("'" ++ type_name v ++ "' object is not subscriptable").

(** [bool(v)] *)
Definition truthy (v : value) : bool :=
  match v with
  | VNone => false
  | VBool b => b
  | VInt z => negb (z =? 0)
  | VFloat f => float_truth f
  | VStr s => negb (s =? "")%string
  | VList l => match l with [] => false | _ => true end
  | VDict d => match d with [] => false | _ => true end
  end.

(** [a or b], with [b] free of effects *)
Definition py_or (a b : value) : value := if truthy a then a else b.

Definition str_of_int (z : Z) : string := NilZero.string_of_int (Z.to_int z).

(** [str(v)] *)
Definition py_str (v : value) : string :=
  match v with
  | VNone => "None"
  | VBool true => "True"
  | VBool false => "False"
  | VInt z => str_of_int z
  | VFloat f => float_repr f
  | VStr s => s
  | VList _ | VDict _ => container_repr v
  end.

Fixpoint lookup (k : string) (d : list (string * value)) : option value :=
  match d with
  | [] => None
  | (k', v) :: d' => if (k' =? k)%string then Some v else lookup k d'
  end.

(** [v.get(k, dflt)] *)
Definition py_get_default (v : value) (k : string) (dflt : value) : exc value :=
  match v with
  | VDict d => Ok (match lookup k d with Some x => x | None => dflt end)
  | _ => Raise (AttributeError v "get")
  end.

(** [v.get(k)] *)
Definition py_get (v : value) (k : string) : exc value :=
  py_get_default v k VNone.

Definition chars (s : string) : list value :=
  map (fun c => VStr (String c "")) (list_ascii_of_string s).

(** the elements [for x in v] runs over *)
Definition py_iter (v : value) : exc (list value) :=
  match v with
  | VList l => Ok l
  | VDict d => Ok (map (fun kv => VStr (fst kv)) d)
  | VStr s => Ok (chars s)
  | _ => Raise (NotIterable v)
  end.

Definition seq_item {A} (what : string) (l : list A) (i : Z) : exc A :=
  let n := Z.of_nat (List.length l) in
  let j := if i <? 0 then i + n else i in
  if (j <? 0) || (n <=? j)
  then Raise (Exn "IndexError" (what ++ " index out of range"))
  else match nth_error l (Z.to_nat j) with
       | Some x => Ok x
       | None => Raise (Exn "IndexError" (what ++ " index out of range"))
       end.

(** [v[i]] for an int [i]; the keys of a JSON object are strings *)
Definition py_getitem (v : value) (i : Z) : exc value :=
  match v with
  | VList l => seq_item "list" l i
  | VStr s => seq_item "string" (chars s) i
  | VDict _ => Raise (Exn "KeyError" (str_of_int i))
  | _ => Raise (NotSubscriptable v)
  end.

(** *** Strings *)

Definition is_digit (c : ascii) : bool :=
  let n := nat_of_ascii c in ((48 <=? n) && (n <=? 57))%nat.

(** [str.isspace] on one character *)
Definition is_space (c : ascii) : bool :=
  let n := nat_of_ascii c in
  (((9 <=? n) && (n <=? 13)) || ((28 <=? n) && (n <=? 32))
   || (n =? 133) || (n =? 160))%nat.

Fixpoint str_filter (p : ascii -> bool) (s : string) : string :=
  match s with
  | EmptyString => EmptyString
  | String c r => if p c then String c (str_filter p r) else str_filter p r
  end.

Fixpoint str_forall (p : ascii -> bool) (s : string) : bool :=
  match s with
  | EmptyString => true
  | String c r => p c && str_forall p r
  end.

Fixpoint lstrip (s : string) : string :=
  match s with
  | EmptyString => EmptyString
  | String c r => if is_space c then lstrip r else s
  end.

Definition str_rev (s : string) : string :=
  string_of_list_ascii (rev (list_ascii_of_string s)).

Definition strip (s : string) : string :=
  str_rev (lstrip (str_rev (lstrip s))).

(** [v.strip()] *)
Definition py_strip (v : value) : exc string :=
  match v with
  | VStr s => Ok (strip s)
  | _ => Raise (AttributeError v "strip")
  end.

(** *** The regular expression [([\d.,]+)] *)

Definition in_run (c : ascii) : bool :=
  is_digit c || (c =? ".")%char || (c =? ",")%char.

Fixpoint take_run (s : string) : string :=
  match s with
  | EmptyString => EmptyString
  | String c r => if in_run c then String c (take_run r) else EmptyString
  end.

(** [re.search(r"([\d.,]+)", s)]: group 1 of the leftmost match *)
Fixpoint re_search_run (s : string) : option string :=
  match s with
  | EmptyString => None
  | String c r => if in_run c then Some (take_run s) else re_search_run r
  end.

(** [s.replace(",", "")] *)
Definition remove_commas (s : string) : string :=
  str_filter (fun c => negb (c =? ",")%char) s.

(** ** UTILITARIOS *)

Definition py_float_of_int (z : Z) : exc float :=
  match float_of_int z with
  | Some f => Ok f
  | None => Raise (Exn "OverflowError" "int too large to convert to float")
  end.

Definition py_float_of_str (s : string) : exc float :=
  match float_of_str s with
  | Some f => Ok f
  | None => Raise (Exn "ValueError" ("could not convert string to float: " ++ s))
  end.

(** [num(x)]; the result [None] is Python's [None]. *)
Definition num (x : value) : exc (option float) :=
  match x with
  | VNone | VBool _ => Ok None
  | _ =>
    exc_try
      (match x with
       | VInt z => (f <- py_float_of_int z ;; Ok (Some f))%exc
       | VFloat f => Ok (Some f)
       | _ =>
         match re_search_run (py_str x) with
         | Some g => (f <- py_float_of_str (remove_commas g) ;; Ok (Some f))%exc
         | None => Ok None
         end
       end)
      (fun _ => Ok None)
  end.

Definition of_opt_float (o : option float) : value :=
  match o with
  | Some f => VFloat f
  | None => VNone
  end.

(** [money(v)] *)
Definition money (v : value) : exc string :=
  (v' <- num v ;;
   Ok (match v' with
       | None => ""
       | Some f => float_fmt2 f
       end))%exc.

(** [clean_digits(s)]: [re.sub(r"\D", "", str(s or ""))] *)
Definition clean_digits (s : value) : string :=
  str_filter is_digit (py_str (py_or s (VStr ""))).

End Python.

(** ** Identifier match *)

Section Match.
Context {PF : PyFloat} {PR : PyRepr}.

(** [for x in l: if f(x): return True], falling through with [False] *)
Fixpoint exc_any {A} (f : A -> exc bool) (l : list A) : exc bool :=
  match l with
  | [] => Ok false
  | x :: r => (b <- f x ;; if b : bool then Ok true else exc_any f r)%exc
  end.

Definition direct_fields : list string :=
  ["gtin"; "ean"; "upc"; "sku"; "visualCode"].

Definition list_fields : list string := ["eans"; "gtins"; "upcs"].

Definition digits_eq (t : string) (v : value) : bool :=
  (clean_digits v =? t)%string.

(** the loop over the direct fields *)
Definition match_direct (detail_json : value) (t : string) : exc bool :=
  exc_any (fun k => (v <- py_get detail_json k ;; Ok (digits_eq t v))%exc)
          direct_fields.

(** the loop over the list fields, each iteration under its own [try] *)
Definition match_lists (detail_json : value) (t : string) : exc bool :=
  exc_any (fun k =>
             (vals0 <- py_get detail_json k ;;
              let vals := py_or vals0 (VList []) in
              exc_try (l <- py_iter vals ;;
                       exc_any (fun v => Ok (digits_eq t v)) l)
                      (fun _ => Ok false))%exc)
          list_fields.

Definition match_feature (t : string) (feat : value) : exc bool :=
  (fv0 <- py_get_default feat "featureValues" (VList []) ;;
   fvs <- py_iter (py_or fv0 (VList [])) ;;
   b <- exc_any (fun val => (x <- py_get val "value" ;; Ok (digits_eq t x))%exc)
                fvs ;;
   if b : bool then Ok true
   else (x <- py_get feat "value" ;; Ok (digits_eq t x)))%exc.

Definition match_classifications (detail_json : value) (t : string) : exc bool :=
  (cls0 <- py_get_default detail_json "classifications" (VList []) ;;
   cls <- py_iter (py_or cls0 (VList [])) ;;
   exc_any (fun cl =>
              (fs0 <- py_get_default cl "features" (VList []) ;;
               fs <- py_iter (py_or fs0 (VList [])) ;;
               exc_any (match_feature t) fs)%exc)
           cls)%exc.

(** [upc_matches(detail_json, upc)] *)
Definition upc_matches (detail_json upc : value) : exc bool :=
  let t := clean_digits upc in
  if (t =? "")%string then Ok false
  else
    (b1 <- match_direct detail_json t ;;
     if b1 : bool then Ok true
     else
       b2 <- match_lists detail_json t ;;
       if b2 : bool then Ok true
       else match_classifications detail_json t)%exc.

End Match.

(** ** The browsing context *)

Inductive http_method := GET | POST | DELETE.

Record request {PF : PyFloat} := Request {
  rq_method : http_method;
  rq_url : string;
  rq_params : list (string * value);
  (** the value handed to [json.dumps] for the body *)
  rq_data : option value;
  rq_headers : list (string * string);
  rq_timeout : Z
}.
Arguments Request {_} _ _ _ _ _ _.

(** [r.ok], and [r.json()] where [None] stands for a body that does not
    parse. *)
Record response {PF : PyFloat} := Response {
  ok : bool;
  json : option value
}.
Arguments Response {_} _ _.

(** The platform seen through [context.request], together with the clock:
    a request is answered or raises, and may change the platform's state. *)
Class Platform {PF : PyFloat} := {
  world : Type;
  http : request -> world -> exc response * world;
  sleep : Q -> world -> world;
  now_str : world -> string
}.

Inductive api_op :=
| OpSearch | OpDetail
| OpCartCreate | OpCartList | OpCartCurrent
| OpAddEntry | OpGetPrices | OpRemove.

Record call {PF : PyFloat} := Call {
  c_op : api_op;
  c_req : request;
  c_out : exc response
}.
Arguments Call {_} _ _ _.

Record row {PF : PyFloat} := Row {
  UPC : value;
  precio_sin_promocion : string;
  precio_con_promocion : string;
  nombre_del_producto : string;
  fecha_scrapping : string
}.
Arguments Row {_} _ _ _ _ _.

(** What a computation leaves behind: its result, the platform afterwards,
    the requests it issued with their outcomes, and the records it appended
    to the list [rows] of [main] (both oldest first). *)
Record outcome {PF : PyFloat} {PL : Platform} (A : Type) := Out {
  result : exc A;
  final : world;
  calls : list call;
  rows : list row
}.
Arguments Out {_ _ A} _ _ _ _.
Arguments result {_ _ A} _.
Arguments final {_ _ A} _.
Arguments calls {_ _ A} _.
Arguments rows {_ _ A} _.

Section Monad.
Context {PF : PyFloat} {PL : Platform}.

Definition M (A : Type) : Type := world -> outcome A.

Definition ret {A} (a : A) : M A := fun w => Out (Ok a) w [] [].

Definition raise {A} (e : exn) : M A := fun w => Out (Raise e) w [] [].

Definition lift {A} (m : exc A) : M A := fun w => Out m w [] [].

Definition bind {A B} (m : M A) (k : A -> M B) : M B :=
  fun w =>
    let o := m w in
    match result o with
    | Ok a =>
      let o' := k a (final o) in
      Out (result o') (final o') (calls o ++ calls o') (rows o ++ rows o')
    | Raise e => Out (Raise e) (final o) (calls o) (rows o)
    end.

(** [try: m except Exception as e: h e] *)
Definition try_catch {A} (m : M A) (h : exn -> M A) : M A :=
  fun w =>
    let o := m w in
    match result o with
    | Ok a => o
    | Raise e =>
      let o' := h e (final o) in
      Out (result o') (final o') (calls o ++ calls o') (rows o ++ rows o')
    end.

Definition send (op : api_op) (rq : request) : M response :=
  fun w =>
    let out := fst (http rq w) in
    Out out (snd (http rq w)) [Call op rq out] [].

Definition do_sleep (secs : Q) : M unit :=
  fun w => Out (Ok tt) (sleep secs w) [] [].

(** [rows.append({..., "Fecha Scrapping": now_str()})] *)
Definition append_row (upc : value) (sin con nombre : string) : M unit :=
  fun w => Out (Ok tt) w [] [Row upc sin con nombre (now_str w)].

End Monad.

Declare Scope M_scope.
Delimit Scope M_scope with M.
Notation "x <- m ;; k" := (bind m (fun x => k))
  (at level 61, m at next level, right associativity) : M_scope.
Notation "m ;;; k" := (bind m (fun _ => k))
  (at level 61, right associativity) : M_scope.

(** ** CONSTANTES *)

Definition BASE_WEB := "https://www.farmaciasanpablo.com.mx".
Definition API_HOST := "https://api.farmaciasanpablo.com.mx".
Definition SITE_ID := "fsp".
Definition PREFIX := "/rest/v2".
Definition CURR := "MXN".
Definition LANG := "es_MX".

Definition COMMON_HEADERS : list (string * string) :=
  [ ("Accept", "application/json");
    ("Accept-Language", "es-MX,es;q=0.9");
    ("Origin", BASE_WEB);
    ("Referer", BASE_WEB ++ "/");
    ("User-Agent",
     "Mozilla/5.0 (Windows NT 10.0; Win64; x64) "
     ++ "AppleWebKit/537.36 (KHTML, like Gecko) "
     ++ "Chrome/124.0.0.0 Safari/537.36");
    ("X-Requested-With", "XMLHttpRequest") ].

Section Scraper.
Context {PF : PyFloat} {PR : PyRepr} {PL : Platform}.

Local Open Scope M_scope.

(** [r.json()] *)
Definition py_json (r : response) : exc value :=
  match json r with
  | Some v => Ok v
  | None => Raise (Exn "JSONDecodeError" "response body is not JSON")
  end.

(** ** API OCC *)

Definition search_request (q : value) : request :=
  Request GET (API_HOST ++ PREFIX ++ "/" ++ SITE_ID ++ "/products/search")
          [ ("query", q);
            ("curr", VStr CURR);
            ("lang", VStr LANG);
            ("pageSize", VStr "24");
            ("currentPage", VStr "0");
            ("fields", VStr "products(code,name)") ]
          None COMMON_HEADERS 15000.

(** what [OCC.search] returns for the response [r] *)
Definition search_result (r : response) : exc value :=
  if negb (ok r) then Ok (VList [])
  else
    exc_try (j <- py_json r ;;
             p <- py_get j "products" ;;
             Ok (py_or p (VList [])))%exc
            (fun _ => Ok (VList [])).

Definition occ_search (q : value) : M value :=
  r <- send OpSearch (search_request q) ;;
  lift (search_result r).

Definition detail_request (code : value) : request :=
  Request GET (API_HOST ++ PREFIX ++ "/" ++ SITE_ID ++ "/products/" ++ py_str code)
          [ ("fields", VStr "FULL"); ("curr", VStr CURR); ("lang", VStr LANG) ]
          None COMMON_HEADERS 15000.

(** what [OCC.detail] returns for the response [r] *)
Definition detail_result (r : response) : exc value :=
  if negb (ok r) then Ok (VDict [])
  else exc_try (py_json r) (fun _ => Ok (VDict [])).

Definition occ_detail (code : value) : M value :=
  r <- send OpDetail (detail_request code) ;;
  lift (detail_result r).

(** ** CARRITO *)

Definition carts_base : string :=
  API_HOST ++ PREFIX ++ "/" ++ SITE_ID ++ "/users/anonymous/carts".

Definition default_params : list (string * value) :=
  [ ("fields", VStr "DEFAULT"); ("lang", VStr LANG); ("curr", VStr CURR) ].

(** [x.get("guid") or x.get("code")] *)
Definition guid_or_code (x : value) : exc value :=
  (g <- py_get x "guid" ;;
   if truthy g then Ok g else py_get x "code")%exc.

Definition cart_create : M value :=
  r <- send OpCartCreate
            (Request POST carts_base [ ("lang", VStr LANG); ("curr", VStr CURR) ]
                     None COMMON_HEADERS 15000) ;;
  if negb (ok r) then ret VNone
  else
    match (j <- py_json r ;;
           guid <- py_get j "guid" ;;
           code <- py_get j "code" ;;
           Ok (guid, code))%exc with
    | Raise _ => ret VNone
    | Ok (guid, code) =>
      guid <- (if negb (truthy guid) then
                 r2 <- send OpCartList
                            (Request GET carts_base default_params
                                     None COMMON_HEADERS 15000) ;;
                 if ok r2 then
                   lift (exc_try
                           (arr <- py_json r2 ;;
                            match arr with
                            | VList (_ :: _) =>
                              (a0 <- py_getitem arr 0 ;; guid_or_code a0)
                            | _ => Ok guid
                            end)%exc
                           (fun _ => Ok guid))
                 else ret guid
               else ret guid) ;;
      guid <- (if negb (truthy guid) then
                 r3 <- send OpCartCurrent
                            (Request GET (carts_base ++ "/current") default_params
                                     None COMMON_HEADERS 15000) ;;
                 if ok r3 then
                   lift (exc_try (cur <- py_json r3 ;; guid_or_code cur)%exc
                                 (fun _ => Ok guid))
                 else ret guid
               else ret guid) ;;
      ret (py_or (py_or guid code) VNone)
    end.

Definition add_entry_request (cart_id code : value) (qty : Z) : request :=
  Request POST (carts_base ++ "/" ++ py_str cart_id ++ "/entries")
          [ ("lang", VStr LANG); ("curr", VStr CURR) ]
          (Some (VDict [ ("product", VDict [ ("code", code) ]);
                         ("quantity", VInt qty) ]))
          (COMMON_HEADERS ++ [ ("Content-Type", "application/json") ])
          15000.

(** [Cart.add_entry(cart_id, code, qty=1)] *)
Definition cart_add_entry (cart_id code : value) : M bool :=
  r <- send OpAddEntry (add_entry_request cart_id code 1) ;;
  ret (ok r).

Definition prices_fields : string :=
  "entries(entryNumber,product(code,name),"
  ++ "basePrice(value,formattedValue),totalPrice(value,formattedValue))".

Definition prices_request (cart_id : value) : request :=
  Request GET (carts_base ++ "/" ++ py_str cart_id)
          [ ("fields", VStr prices_fields); ("lang", VStr LANG); ("curr", VStr CURR) ]
          None COMMON_HEADERS 15000.

Definition prices : Type := option float * option float * string.

(** [(e.get(k) or {}).get("value")] *)
Definition price_value (e : value) (k : string) : exc value :=
  (p <- py_get e k ;; py_get (py_or p (VDict [])) "value")%exc.

(** what [Cart.get_prices] returns for the response [r]; [None] is
    Python's [None] *)
Definition prices_result (entry_idx : Z) (r : response) : exc (option prices) :=
  if negb (ok r) then Ok None
  else
    exc_try
      (j <- py_json r ;;
       ents0 <- py_get j "entries" ;;
       let ents := py_or ents0 (VList []) in
       if negb (truthy ents) then Ok None
       else
         e <- py_getitem ents entry_idx ;;
         bv <- price_value e "basePrice" ;;
         base <- num bv ;;
         tv <- price_value e "totalPrice" ;;
         total <- num tv ;;
         p <- py_get e "product" ;;
         n <- py_get (py_or p (VDict [])) "name" ;;
         name <- py_strip (py_or n (VStr "")) ;;
         Ok (Some (base, total, name)))%exc
      (fun _ => Ok None).

Definition cart_get_prices (cart_id : value) (entry_idx : Z) : M (option prices) :=
  r <- send OpGetPrices (prices_request cart_id) ;;
  lift (prices_result entry_idx r).

Definition remove_request (cart_id : value) (entry_idx : Z) : request :=
  Request DELETE
          (carts_base ++ "/" ++ py_str cart_id ++ "/entries/" ++ str_of_int entry_idx)
          [] None COMMON_HEADERS 10000.

(** [Cart.remove(cart_id, entry_idx)] *)
Definition cart_remove (cart_id : value) (entry_idx : Z) : M unit :=
  try_catch (_ <- send OpRemove (remove_request cart_id entry_idx) ;; ret tt)
            (fun _ => ret tt).

(** ** SCRAPING PRINCIPAL *)

Definition not_found (upc : value) : M unit :=
  append_row upc "-" "-" "No encontrado".

(** the loop [for pdt in products] with its [break]; the result is the
    final [(picked, detail)] *)
Fixpoint pick (upc : value) (products : list value) : M (value * value) :=
  match products with
  | [] => ret (VNone, VDict [])
  | pdt :: rest =>
    code <- lift (py_get pdt "code") ;;
    if negb (truthy code) then pick upc rest
    else
      dj <- occ_detail code ;;
      if truthy dj then
        m <- lift (upc_matches dj upc) ;;
        if m : bool then ret (pdt, dj) else pick upc rest
      else pick upc rest
  end.

(** [(detail.get("name") or picked.get("name") or "").strip()] *)
Definition resolved_name (detail picked : value) : exc string :=
  (dn <- py_get detail "name" ;;
   n <- (if truthy dn then Ok dn
         else pn <- py_get picked "name" ;; Ok (py_or pn (VStr ""))) ;;
   py_strip n)%exc.

Definition promo_of (base total : option float) : option float :=
  match total, base with
  | Some t, Some b => if float_ltb t (float_sub b float_1e_9) then Some t else None
  | _, _ => None
  end.

(** lines 385-416: the price read with its retry, the row and the cleanup *)
Definition read_price (cart_id upc : value) (name : string) : M unit :=
  do_sleep (2 # 10) ;;;
  got <- cart_get_prices cart_id 0 ;;
  got <- (match got with
          | None => do_sleep (4 # 10) ;;; cart_get_prices cart_id 0
          | Some _ => ret got
          end) ;;
  match got with
  | None =>
    append_row upc "-" "-" name ;;;
    cart_remove cart_id 0
  | Some (base, total, name2) =>
    let name := if (name2 =? "")%string then name else name2 in
    let promo := promo_of base total in
    sin <- lift (money (of_opt_float base)) ;;
    con <- lift (money (of_opt_float promo)) ;;
    append_row upc sin con name ;;;
    cart_remove cart_id 0
  end.

(** [f":relevance:freeText:{upc}"] *)
Definition fallback_query (upc : value) : value :=
  VStr (":relevance:freeText:" ++ py_str upc).

(** [occ.search(upc) or occ.search(f":relevance:freeText:{upc}")] *)
Definition find_products (upc : value) : M value :=
  found <- occ_search upc ;;
  if truthy found then ret found else occ_search (fallback_query upc).

(** the body of the [try] of the loop over [upcs] *)
Definition item_body (cart_id upc : value) : M unit :=
  products <- find_products upc ;;
  if negb (truthy products) then not_found upc
  else
    items <- lift (py_iter products) ;;
    pd <- pick upc items ;;
    let '(picked, detail) := pd in
    if negb (truthy picked) then not_found upc
    else
      code <- lift (py_get picked "code") ;;
      name <- lift (resolved_name detail picked) ;;
      added <- cart_add_entry cart_id code ;;
      if negb added then append_row upc "-" "-" name
      else read_price cart_id upc name.

Definition error_row_name (e : exn) : string := "Error general: " ++ exn_str e.

(** one iteration of the loop over [upcs]: the [try] and its handler *)
Definition process_upc (cart_id upc : value) : M unit :=
  try_catch (item_body cart_id upc)
            (fun e => append_row upc "-" "-" (error_row_name e)).

Fixpoint scrape (cart_id : value) (upcs : list value) : M unit :=
  match upcs with
  | [] => ret tt
  | upc :: rest => process_upc cart_id upc ;;; scrape cart_id rest
  end.

Definition no_cart : exn :=
  Exn "RuntimeError"
      ("No se pudo crear carrito an" ++ String (ascii_of_nat 243) "nimo").

(** [main], from the creation of the cart to the end of the loop; [upcs]
    is the list read from [upc_path], and [rows] of the outcome is the list
    handed to [write_rows].  Installing and launching the browser, reading
    the input and writing the CSV file are outside the model. *)
Definition main (upcs : list value) : M unit :=
  cart_id <- cart_create ;;
  if negb (truthy cart_id) then raise no_cart
  else scrape cart_id upcs.

End Scraper.

(** ** Reading a run

    The requests of a run, read back: what each client method made of the
    answer it got, how often a method was called, and the order of steps. *)

Section Reading.
Context {PF : PyFloat} {PR : PyRepr}.

Definition op_eqb (a b : api_op) : bool :=
  match a, b with
  | OpSearch, OpSearch | OpDetail, OpDetail
  | OpCartCreate, OpCartCreate | OpCartList, OpCartList
  | OpCartCurrent, OpCartCurrent
  | OpAddEntry, OpAddEntry | OpGetPrices, OpGetPrices
  | OpRemove, OpRemove => true
  | _, _ => false
  end.

Definition by_op (op : api_op) (t : list call) : list call :=
  filter (fun c => op_eqb (c_op c) op) t.

Definition count_op (op : api_op) (t : list call) : nat :=
  List.length (by_op op t).

(** what [OCC.search] returned on this call *)
Definition searched (c : call) : exc value :=
  (r <- c_out c ;; search_result r)%exc.

(** what [OCC.detail] returned on this call *)
Definition detailed (c : call) : exc value :=
  (r <- c_out c ;; detail_result r)%exc.

(** the condition [dj and upc_matches(dj, upc)] on this call *)
Definition verdict (upc : value) (c : call) : exc bool :=
  (dj <- detailed c ;; if truthy dj then upc_matches dj upc else Ok false)%exc.

(** whether [Cart.add_entry] returned true on this call *)
Definition added (c : call) : bool :=
  match c_out c with
  | Ok r => ok r
  | Raise _ => false
  end.

(** what [Cart.get_prices] returned on this call *)
Definition read (c : call) : exc (option prices) :=
  (r <- c_out c ;; prices_result 0 r)%exc.

(** The steps of one identifier, as an automaton over its requests. *)
Inductive step :=
| Searching   (* no candidate fetched yet *)
| Fetching    (* candidates fetched, none matched *)
| Matched     (* the last candidate fetched matched *)
| Added       (* the product is in the cart *)
| Reading     (* the price was read at least once *)
| Finished.   (* nothing may follow *)

Definition next (upc : value) (q : step) (c : call) : option step :=
  match q, c_op c with
  | Searching, OpSearch => Some Searching
  | (Searching | Fetching), OpDetail =>
    Some (match verdict upc c with
          | Ok true => Matched
          | _ => Fetching
          end)
  | Matched, OpAddEntry => Some (if added c then Added else Finished)
  | (Added | Reading), OpGetPrices => Some Reading
  | Reading, OpRemove => Some Finished
  | _, _ => None
  end.

Fixpoint follow (upc : value) (q : step) (t : list call) : option step :=
  match t with
  | [] => Some q
  | c :: r =>
    match next upc q c with
    | Some q' => follow upc q' r
    | None => None
    end
  end.

(** [t] keeps the order search, detail fetch with match, cart add, price
    read, cleanup, each step under its condition. *)
Definition in_step_order (upc : value) (t : list call) : bool :=
  match follow upc Searching t with
  | Some _ => true
  | None => false
  end.

(** the text [t] occurs in [s] *)
Definition occurs_in (t s : string) : bool :=
  match String.index 0 t s with
  | Some _ => true
  | None => false
  end.

(** The values [upc_matches] compares with the identifier: the direct
    fields, the elements of the list fields, and the values of the
    classification features. *)
Inductive field_value (d : value) : value -> Prop :=
| FV_direct k v :
    In k direct_fields -> py_get d k = Ok v -> field_value d v
| FV_list k vals l v :
    In k list_fields -> py_get d k = Ok vals ->
    py_iter (py_or vals (VList [])) = Ok l -> In v l -> field_value d v
| FV_feature_value cls0 cls cl fs0 fs feat fv0 fvs val v :
    py_get_default d "classifications" (VList []) = Ok cls0 ->
    py_iter (py_or cls0 (VList [])) = Ok cls -> In cl cls ->
    py_get_default cl "features" (VList []) = Ok fs0 ->
    py_iter (py_or fs0 (VList [])) = Ok fs -> In feat fs ->
    py_get_default feat "featureValues" (VList []) = Ok fv0 ->
    py_iter (py_or fv0 (VList [])) = Ok fvs -> In val fvs ->
    py_get val "value" = Ok v -> field_value d v
| FV_feature cls0 cls cl fs0 fs feat v :
    py_get_default d "classifications" (VList []) = Ok cls0 ->
    py_iter (py_or cls0 (VList [])) = Ok cls -> In cl cls ->
    py_get_default cl "features" (VList []) = Ok fs0 ->
    py_iter (py_or fs0 (VList [])) = Ok fs -> In feat fs ->
    py_get feat "value" = Ok v -> field_value d v.

(** The first run of digits, dots and commas of [s], if any. *)
Definition outside_run (c : ascii) : bool := negb (in_run c).

Definition first_run (s : string) (o : option string) : Prop :=
  match o with
  | None => str_forall outside_run s = true
  | Some g =>
    exists pre post,
      s = pre ++ g ++ post
      /\ str_forall outside_run pre = true
      /\ (g =? "")%string = false
      /\ str_forall in_run g = true
      /\ str_forall outside_run (String.substring 0 1 post) = true
  end.

End Reading.

(** * A reference runtime and two platforms, for running the model

    [Binary64] is IEEE 754 double precision on [spec_float], with CPython's
    conversions: an int too large raises, a numeral is rounded to the
    nearest float, [repr] prints the shortest decimal that reads back. *)

Module Binary64.

Definition prec := 53.
Definition emax := 1024.

(** the float nearest to [d * 10^e10], ties to even; [d >= 0] *)
Definition of_decimal (neg : bool) (d e10 : Z) : spec_float :=
  match d with
  | Zpos p =>
    if 0 <=? e10 then binary_normalize prec emax (Zpos p * 10 ^ e10) 0 false
    else SFdiv prec emax (S754_finite false p 0)
                         (S754_finite false (Z.to_pos (10 ^ (- e10))) 0)
  | _ => S754_zero false
  end.

Definition with_sign (neg : bool) (f : spec_float) : spec_float :=
  if neg then SFopp f else f.

Definition of_int (z : Z) : option spec_float :=
  match binary_normalize prec emax z 0 false with
  | S754_infinity _ => None
  | f => Some f
  end.

Definition digit_val (c : ascii) : option Z :=
  let n := nat_of_ascii c in
  if ((48 <=? n) && (n <=? 57))%nat then Some (Z.of_nat n - 48) else None.

(** digits read so far, digits after the point, whether a point and a digit
    were seen *)
Fixpoint scan (s : string) (acc frac : Z) (point digit : bool)
  : option (Z * Z) :=
  match s with
  | EmptyString => if digit then Some (acc, frac) else None
  | String c r =>
    match digit_val c with
    | Some v => scan r (10 * acc + v) (if point then frac + 1 else frac) point true
    | None =>
      if (c =? ".")%char && negb point then scan r acc frac true digit
      else None
    end
  end.

(** [float(s)] for an unsigned decimal numeral without exponent, the only
    strings [num] converts: runs of digits and dots *)
Definition of_str (s : string) : option spec_float :=
  match scan s 0 0 false false with
  | Some (d, k) => Some (of_decimal false d (- k))
  | None => None
  end.

Definition truth (f : spec_float) : bool :=
  match f with
  | S754_zero _ => false
  | _ => true
  end.

(** [a / b] rounded to the nearest integer, ties to even; [0 <= a], [0 < b] *)
Definition div_nearest_even (a b : Z) : Z :=
  let q := a / b in
  let r := a mod b in
  match 2 * r ?= b with
  | Lt => q
  | Gt => q + 1
  | Eq => if Z.even q then q else q + 1
  end.

Fixpoint pad_left (n : nat) (s : string) : string :=
  match n with
  | O => s
  | S n' => if (String.length s <? n)%nat then pad_left n' (String "0" s) else s
  end.

Definition fixed2 (neg : bool) (n : Z) : string :=
  (if neg then "-" else "") ++ str_of_int (n / 100) ++ "."
  ++ pad_left 2 (str_of_int (n mod 100)).

(** [f"{v:.2f}"] *)
Definition fmt2 (f : spec_float) : string :=
  match f with
  | S754_nan => "nan"
  | S754_infinity s => if s then "-inf" else "inf"
  | S754_zero s => fixed2 s 0
  | S754_finite s m e =>
    fixed2 s (if 0 <=? e then Zpos m * 2 ^ e * 100
              else div_nearest_even (Zpos m * 100) (2 ^ (- e)))
  end.

(** *** [repr]: the shortest decimal that reads back as the same float *)

(** the position [k] of the decimal point: [10^(k-1) <= a/b < 10^k] *)
Fixpoint decpt_up (fuel : nat) (a b k : Z) : Z :=
  match fuel with
  | O => k
  | S fuel' => if b * 10 ^ k <=? a then decpt_up fuel' a b (k + 1) else k
  end.

Fixpoint decpt_down (fuel : nat) (a b k : Z) : Z :=
  match fuel with
  | O => k
  | S fuel' => if a * 10 ^ (- k + 1) <? b then decpt_down fuel' a b (k - 1) else k
  end.

Definition decpt (a b : Z) : Z :=
  if b <=? a then decpt_up 400 a b 1 else decpt_down 400 a b 0.

Definition reads_back (f : spec_float) (c e10 : Z) : bool :=
  match SFcompare (of_decimal false c e10) f with
  | Some Eq => true
  | _ => false
  end.

(** the [n]-digit candidate for [a/b], if one reads back as [f] *)
Definition candidate (f : spec_float) (a b k : Z) (n : Z) : option Z :=
  let e10 := k - n in
  let num := if 0 <=? e10 then a else a * 10 ^ (- e10) in
  let den := if 0 <=? e10 then b * 10 ^ e10 else b in
  let lo := num / den in
  let r := num mod den in
  let hi := lo + 1 in
  let lo_ok := reads_back f lo e10 in
  let hi_ok := negb (r =? 0) && reads_back f hi e10 in
  match lo_ok, hi_ok with
  | true, true =>
    Some (match 2 * r ?= den with
          | Lt => lo
          | Gt => hi
          | Eq => if Z.even lo then lo else hi
          end)
  | true, false => Some lo
  | false, true => Some hi
  | false, false => None
  end.

Fixpoint shortest (fuel : nat) (f : spec_float) (a b k n : Z) : Z * Z :=
  match fuel with
  | O => (0, n)
  | S fuel' =>
    match candidate f a b k n with
    | Some c => (c, n)
    | None => shortest fuel' f a b k (n + 1)
    end
  end.

Fixpoint zeros (n : nat) : string :=
  match n with
  | O => ""
  | S n' => String "0" (zeros n')
  end.

Fixpoint strip_zeros_rev (l : list ascii) : list ascii :=
  match l with
  | "0"%char :: r => strip_zeros_rev r
  | _ => l
  end.

Definition strip_trailing_zeros (s : string) : string :=
  match rev (strip_zeros_rev (rev (list_ascii_of_string s))) with
  | [] => "0"
  | l => string_of_list_ascii l
  end.

(** the digits [ds] with the decimal point after the first [k] of them *)
Definition layout (ds : string) (k : Z) : string :=
  let nd := Z.of_nat (String.length ds) in
  if (k <=? -4) || (16 <? k) then
    let e := k - 1 in
    String.substring 0 1 ds
    ++ (if 1 <? nd then "." ++ String.substring 1 (String.length ds - 1) ds else "")
    ++ "e" ++ (if e <? 0 then "-" else "+")
    ++ pad_left 2 (str_of_int (Z.abs e))
  else if k <=? 0 then "0." ++ zeros (Z.to_nat (- k)) ++ ds
  else if nd <=? k then ds ++ zeros (Z.to_nat (k - nd)) ++ ".0"
  else String.substring 0 (Z.to_nat k) ds ++ "."
       ++ String.substring (Z.to_nat k) (String.length ds - Z.to_nat k) ds.

(** [str(f)] *)
Definition repr (f : spec_float) : string :=
  match f with
  | S754_nan => "nan"
  | S754_infinity s => if s then "-inf" else "inf"
  | S754_zero s => if s then "-0.0" else "0.0"
  | S754_finite s m e =>
    let a := if 0 <=? e then Zpos m * 2 ^ e else Zpos m in
    let b := if 0 <=? e then 1 else 2 ^ (- e) in
    let k := decpt a b in
    let '(c, n) := shortest 17 (S754_finite false m e) a b k 1 in
    (* a candidate [10^n] is the digit 1 one place further left *)
    let k' := if c =? 10 ^ n then k + 1 else k in
    (if s then "-" else "") ++ layout (strip_trailing_zeros (str_of_int c)) k'
  end.


#[global] Instance binary64 : PyFloat := {
  float := spec_float;
  float_of_int := of_int;
  float_of_str := of_str;
  float_truth := truth;
  float_sub := SFsub prec emax;
  float_ltb := SFltb;
  float_1e_9 := of_decimal false 1 (-9);
  float_fmt2 := fmt2;
  float_repr := repr
}.

(** *** [repr] of strings, lists and dicts *)

Definition dquote : ascii := ascii_of_nat 34.
Definition backslash : ascii := ascii_of_nat 92.

Fixpoint str_mem (c : ascii) (s : string) : bool :=
  match s with
  | EmptyString => false
  | String c' r => (c' =? c)%char || str_mem c r
  end.

Definition hex_digit (n : nat) : ascii :=
  nth n (list_ascii_of_string "0123456789abcdef") "0"%char.

Definition escape_char (q c : ascii) : string :=
  let n := nat_of_ascii c in
  if (c =? q)%char || (c =? backslash)%char then String backslash (String c "")
  else if (n =? 9)%nat then String backslash "t"
  else if (n =? 10)%nat then String backslash "n"
  else if (n =? 13)%nat then String backslash "r"
  else if ((n <? 32) || (n =? 127) || ((128 <=? n) && (n <=? 160)) || (n =? 173))%nat
  then String backslash
              (String "x" (String (hex_digit (n / 16)) (String (hex_digit (n mod 16)) "")))
  else String c "".

Fixpoint escape (q : ascii) (s : string) : string :=
  match s with
  | EmptyString => EmptyString
  | String c r => escape_char q c ++ escape q r
  end.

Definition repr_str (s : string) : string :=
  let q := if str_mem "'"%char s && negb (str_mem dquote s) then dquote else "'"%char in
  String q (escape q s ++ String q "").

Fixpoint join (l : list string) : string :=
  match l with
  | [] => ""
  | [x] => x
  | x :: r => x ++ ", " ++ join r
  end.

Fixpoint py_repr (v : value) : string :=
  match v with
  | VNone => "None"
  | VBool true => "True"
  | VBool false => "False"
  | VInt z => str_of_int z
  | VFloat f => repr f
  | VStr s => repr_str s
  | VList l => "[" ++ join (map py_repr l) ++ "]"
  | VDict d =>
    "{" ++ join (map (fun kv => let '(k, x) := kv in repr_str k ++ ": " ++ py_repr x) d)
        ++ "}"
  end.

#[global] Instance python_repr : PyRepr := { container_repr := py_repr }.

End Binary64.

(** A platform that answers the requests it receives, whatever they are,
    with a fixed sequence of outcomes, and times out once the sequence is
    exhausted. *)
Module Replay.
Import Binary64.

Definition timeout : exn := Exn "TimeoutError" "Timeout 15000ms exceeded.".

Definition replay : Platform := {|
  world := list (exc response);
  http := fun _ w =>
            match w with
            | o :: r => (o, r)
            | [] => (Raise timeout, [])
            end;
  sleep := fun _ w => w;
  now_str := fun _ => "2024-05-01 10:00:00"
|}.

Definition answer (v : value) : exc response := Ok (Response true (Some v)).
Definition refusal : exc response := Ok (Response false None).

Definition products_of (l : list value) : value := VDict [("products", VList l)].
Definition listed (code name : string) : value :=
  VDict [("code", VStr code); ("name", VStr name)].
Definition entries_of (l : list value) : value := VDict [("entries", VList l)].
Definition entry (name : string) (base total : value) : value :=
  VDict [("entryNumber", VInt 0);
         ("product", VDict [("name", VStr name)]);
         ("basePrice", VDict [("value", base)]);
         ("totalPrice", VDict [("value", total)])].

Definition cart_id : value := VStr "5a7c".

Definition aspirina : value := listed "41260001" "Aspirina 500 mg 40 tabletas".

Definition aspirina_detail : value :=
  VDict [("code", VStr "41260001");
         ("name", VStr "Aspirina 500 mg 40 tabletas ");
         ("ean", VStr "7501008491234")].

(** every request times out *)
Definition offline : list (exc response) := [].

(** neither search finds anything *)
Definition nothing_found : list (exc response) :=
  [answer (products_of []); answer (products_of [])].

(** the first search finds nothing, the fallback finds a product, and its
    detail carries another identifier *)
Definition fallback_finds_another : list (exc response) :=
  [answer (products_of []); answer (products_of [aspirina]); answer aspirina_detail].

(** the search returns 25 candidates, none of which has a detail page *)
Definition crowded : list (exc response) :=
  answer (products_of (repeat aspirina 25)) :: repeat refusal 25.


(** the product is found and added, and the cart shows it at 120 with a
    total of 99.50 *)
Definition on_promotion : list (exc response) :=
  [answer (products_of [aspirina]); answer aspirina_detail; answer VNone;
   answer (entries_of [entry "Aspirina 40 tabs" (VInt 120) (VStr "$99.50 MXN")]);
   answer VNone].

End Replay.

(** A small shop with a catalogue and one anonymous cart.  [read_faults] is
    the number of coming cart reads on which the request times out. *)
Module Shop.
Import Binary64.

Record product := Product {
  p_code : string;
  p_name : string;
  p_ean : string;
  p_price : Z
}.

Record shop := Shop {
  cart : list product;
  read_faults : nat
}.

Definition catalog : list product :=
  [ Product "41260001" "Aspirina 500 mg 40 tabletas" "7501008491234" 58;
    Product "41260002" "Tempra 500 mg 20 tabletas" "7501008499999" 112 ].

Fixpoint after (prefix s : string) : option string :=
  match prefix, s with
  | EmptyString, _ => Some s
  | String a p, String b r => if (a =? b)%char then after p r else None
  | String _ _, EmptyString => None
  end.

Definition summary (p : product) : value :=
  VDict [("code", VStr (p_code p)); ("name", VStr (p_name p))].

Definition full (p : product) : value :=
  VDict [("code", VStr (p_code p)); ("name", VStr (p_name p)); ("ean", VStr (p_ean p))].

Definition price (z : Z) : value :=
  VDict [("value", VInt z); ("formattedValue", VStr ("$" ++ str_of_int z ++ ".00"))].

Definition entry_json (p : product) : value :=
  VDict [("product", summary p);
         ("basePrice", price (p_price p));
         ("totalPrice", price (p_price p))].

Definition found (v : value) : exc response := Ok (Response true (Some v)).
Definition missing : exc response := Ok (Response false None).

Definition query_of (rq : request) : string :=
  match lookup "query" (rq_params rq) with
  | Some q =>
    match after ":relevance:freeText:" (py_str q) with
    | Some rest => rest
    | None => py_str q
    end
  | None => ""
  end.

Definition ordered_code (rq : request) : string :=
  match rq_data rq with
  | Some (VDict (("product", VDict (("code", c) :: _)) :: _)) => py_str c
  | _ => ""
  end.

Definition serve (rq : request) (w : shop) : exc response * shop :=
  let products_base := API_HOST ++ PREFIX ++ "/" ++ SITE_ID ++ "/products/" in
  match rq_method rq, after products_base (rq_url rq), after carts_base (rq_url rq) with
  | GET, Some "search", _ =>
    (found (VDict [("products",
                    VList (map summary
                               (filter (fun p => (p_ean p =? query_of rq)%string)
                                       catalog)))]),
     w)
  | GET, Some code, _ =>
    (match find (fun p => (p_code p =? code)%string) catalog with
     | Some p => found (full p)
     | None => missing
     end, w)
  | POST, _, Some "" =>
    (found (VDict [("guid", VStr "5a7c"); ("code", VStr "00001")]), w)
  | POST, _, Some _ =>
    match find (fun p => (p_code p =? ordered_code rq)%string) catalog with
    | Some p => (found (entry_json p), Shop (cart w ++ [p]) (read_faults w))
    | None => (missing, w)
    end
  | GET, _, Some _ =>
    match read_faults w with
    | S n => (Raise (Exn "TimeoutError" "Timeout 15000ms exceeded."), Shop (cart w) n)
    | O => (found (VDict [("entries", VList (map entry_json (cart w)))]), w)
    end
  | DELETE, _, Some _ => (found VNone, Shop (tl (cart w)) (read_faults w))
  | _, _, _ => (missing, w)
  end.

Definition aspirina_40 : product := nth 0 catalog (Product "" "" "" 0).

Definition shop_platform : Platform := {|
  world := shop;
  http := serve;
  sleep := fun _ w => w;
  now_str := fun _ => "2024-05-01 10:00:00"
|}.

End Shop.

(** ** Shapes of computations *)

Section Shapes.
Context {PF : PyFloat} {PR : PyRepr} {PL : Platform}.

(** [m] appends no record *)
Definition silent {A} (m : M A) : Prop := forall w, rows (m w) = [].

(** [m] appends one record for [upc] when it returns, none when it raises *)
Definition records_one (upc : value) (m : M unit) : Prop :=
  forall w,
    match result (m w) with
    | Ok _ => exists r, rows (m w) = [r] /\ UPC r = upc
    | Raise _ => rows (m w) = []
    end.

(** [m] calls [op] at most [n] times *)
Definition at_most (op : api_op) (n : nat) {A} (m : M A) : Prop :=
  forall w, (count_op op (calls (m w)) <= n)%nat.


(** one call when [op] is [op'], none otherwise *)
Definition uses (op' op : api_op) : nat := if op_eqb op' op then 1 else 0.

(** the search returned no products *)
Definition no_products (r : exc value) : bool :=
  match r with
  | Ok v => negb (truthy v)
  | Raise _ => false
  end.

(** the candidates the search phase hands to the loop [for pdt in products] *)
Definition candidate_list (r : exc value) : list value :=
  match r with
  | Ok products =>
    match py_iter products with
    | Ok items => items
    | Raise _ => []
    end
  | Raise _ => []
  end.

Definition candidates (r : exc value) : nat := List.length (candidate_list r).

(** the codes of the candidates that have one *)
Definition fetchable (items : list value) : list value :=
  flat_map (fun pdt =>
              match py_get pdt "code" with
              | Ok code => if truthy code then [code] else []
              | Raise _ => []
              end)
           items.

Definition not_found_row (upc : value) (fecha : string) : row :=
  Row upc "-" "-" "No encontrado" fecha.

Definition error_row (upc : value) (e : exn) (fecha : string) : row :=
  Row upc "-" "-" ("Error general: " ++ exn_str e) fecha.

End Shapes.

(** ** The rest of the script

    The output file as [write_rows] leaves it, the run of [main] up to the
    file, the lookup of the browser executable, and what is read off the
    requests of a run beside the steps of an identifier. *)

Section Script.
Context {PF : PyFloat} {PR : PyRepr} {PL : Platform}.

Definition o_acute : ascii := ascii_of_nat 243.

(** [headers] of [write_rows] *)
Definition headers : list string :=
  [ "UPC";
    "Precio sin promoci" ++ String o_acute "n";
    "Precio con promoci" ++ String o_acute "n";
    "Nombre del producto";
    "Fecha Scrapping" ].

(** the text the csv writer puts for a field: nothing for [None], the
    string itself, and [str] of anything else *)
Definition csv_text (v : value) : string :=
  match v with
  | VNone => ""
  | _ => py_str v
  end.

(** [w.writerow(r)]: the fields of [r] in the order of [headers] *)
Definition row_record (r : row) : list string :=
  [ csv_text (UPC r);
    precio_sin_promocion r;
    precio_con_promocion r;
    nombre_del_producto r;
    fecha_scrapping r ].

(** The file [out_csv] as a list of records, [None] when it does not exist.
    Quoting, the encoding and failures of the file system are below this
    level. *)
Definition csv_file : Type := option (list (list string)).

(** [write_rows(rows, out_csv)] *)
Definition write_rows (rows : list row) (out_csv : csv_file) : csv_file :=
  let new := match out_csv with None => true | Some _ => false end in
  let before := match out_csv with None => [] | Some records => records end in
  Some (before ++ (if new then [headers] else []) ++ map row_record rows)%list.

(** [main] with its last step: the rows are written once the loop is over,
    and not at all when the run raised before. *)
Definition main_to_csv (upcs : list value) (w : world) (out_csv : csv_file)
  : exc unit * csv_file :=
  let o := main upcs w in
  match result o with
  | Ok _ => (Ok tt, write_rows (rows o) out_csv)
  | Raise e => (Raise e, out_csv)
  end.

(** [data["upcs"] if isinstance(data, dict) else data], for the value
    [data] that [json.load] read from [upc_path] *)
Definition upcs_of (data : value) : exc value :=
  match data with
  | VDict d =>
    match lookup "upcs" d with
    | Some upcs => Ok upcs
    | None => Raise (Exn "KeyError" "'upcs'")
    end
  | _ => Ok data
  end.

(** [main] from the input read to the end of the loop: the identifiers are
    taken from the input before the cart is created, and iterated after *)
Definition main_of (data : value) : M unit :=
  (upcs <- lift (upcs_of data) ;;
   cart_id <- cart_create ;;
   if negb (truthy cart_id) then raise no_cart
   else
     items <- lift (py_iter upcs) ;;
     scrape cart_id items)%M.

(** *** The cart of a run *)

Definition create_request : request :=
  Request POST carts_base [ ("lang", VStr LANG); ("curr", VStr CURR) ]
          None COMMON_HEADERS 15000.

(** the [guid] and [code] that [Cart.create] reads off the answer to its
    POST, [None] where it returns [None] at once *)
Definition created (r : response) : option (value * value) :=
  if negb (ok r) then None
  else
    match (j <- py_json r ;;
           guid <- py_get j "guid" ;;
           code <- py_get j "code" ;;
           Ok (guid, code))%exc with
    | Ok p => Some p
    | Raise _ => None
    end.

Definition list_request : request :=
  Request GET carts_base default_params None COMMON_HEADERS 15000.

Definition current_request : request :=
  Request GET (carts_base ++ "/current") default_params None COMMON_HEADERS 15000.

(** [guid] after lines 238-244, for the answer [r2] to the list of carts *)
Definition guid_after_list (guid : value) (r2 : response) : value :=
  if ok r2 then
    match (arr <- py_json r2 ;;
           match arr with
           | VList (_ :: _) => (a0 <- py_getitem arr 0 ;; guid_or_code a0)
           | _ => Ok guid
           end)%exc with
    | Ok g => g
    | Raise _ => guid
    end
  else guid.

(** [guid] after lines 249-254, for the answer [r3] to the current cart *)
Definition guid_after_current (guid : value) (r3 : response) : value :=
  if ok r3 then
    match (cur <- py_json r3 ;; guid_or_code cur)%exc with
    | Ok g => g
    | Raise _ => guid
    end
  else guid.

(** *** Reading requests *)


(** the cart add was answered, and refused *)
Definition refused (c : call) : bool :=
  match c_out c with
  | Ok r => negb (ok r)
  | Raise _ => false
  end.

(** [money] of the result of [num] *)
Definition price_text (o : option float) : string :=
  match o with
  | Some f => float_fmt2 f
  | None => ""
  end.

(** the record of lines 391-414 for what the last read of the cart
    returned: [None], or the tuple [(base, total, name2)] *)
Definition price_record (upc : value) (name : string) (got : option prices)
           (fecha : string) : row :=
  match got with
  | None => Row upc "-" "-" name fecha
  | Some (base, total, name2) =>
    Row upc (price_text base) (price_text (promo_of base total))
        (if (name2 =? "")%string then name else name2) fecha
  end.

(** [s] neither starts nor ends with a white space character *)
Definition trimmed (s : string) : bool :=
  match list_ascii_of_string s with
  | [] => true
  | c :: r => negb (is_space c) && negb (is_space (last r c))
  end.

Fixpoint starts_with (p s : string) : bool :=
  match p, s with
  | EmptyString, _ => true
  | String a p', String b s' => (a =? b)%char && starts_with p' s'
  | String _ _, EmptyString => false
  end.

Definition api_root : string := API_HOST ++ PREFIX ++ "/" ++ SITE_ID ++ "/".

(** a request to the platform's API, with the common headers, a timeout of
    at most 15 seconds, and a body only on a POST *)
Definition to_api (rq : request) : Prop :=
  starts_with api_root (rq_url rq) = true
  /\ incl COMMON_HEADERS (rq_headers rq)
  /\ 0 < rq_timeout rq <= 15000
  /\ (rq_method rq = POST \/ rq_data rq = None).

(** a request of the run on the cart [cart_id]: it goes to the API, its only
    POST adds one unit of a product to that cart, and its only DELETE
    removes entry 0 of that cart *)
Definition in_cart (cart_id : value) (rq : request) : Prop :=
  to_api rq
  /\ (rq_method rq = POST -> exists code, rq = add_entry_request cart_id code 1)
  /\ (rq_method rq = DELETE -> rq = remove_request cart_id 0).

(** every request [m] issues satisfies [P] *)
Definition all_calls (P : call -> Prop) {A} (m : M A) : Prop :=
  forall w, Forall P (calls (m w)).

(** every value [m] returns satisfies [P] *)
Definition returns {A} (P : A -> Prop) (m : M A) : Prop :=
  forall w a, result (m w) = Ok a -> P a.

End Script.

(** *** The browser executable *)

Definition TMP_PLAYWRIGHT : string := "/tmp/playwright".

(** [os.path.join(a, b)] on POSIX *)
Definition path_join (a b : string) : string :=
  if starts_with "/" b then b
  else
    match a with
    | EmptyString => b
    | _ =>
      if (String.substring (String.length a - 1) 1 a =? "/")%string
      then a ++ b
      else a ++ "/" ++ b
    end.

Definition str_in (x : string) (l : list string) : bool :=
  existsb (String.eqb x) l.

(** [find_headless_shell()], over the triples [(root, dirs, files)] that
    [os.walk(TMP_PLAYWRIGHT)] yields *)
Fixpoint find_headless_shell (walk : list (string * list string * list string))
  : exc string :=
  match walk with
  | [] => Raise (Exn "FileNotFoundError"
                     "headless_shell no encontrado en /tmp/playwright")
  | (root, _, files) :: rest =>
    if str_in "headless_shell" files
    then Ok (path_join root "headless_shell")
    else find_headless_shell rest
  end.

(** * Properties *)

(** ** Strings and numbers *)

Section Utilities.
Context {PF : PyFloat} {PR : PyRepr}.

Lemma str_filter_forall (p : ascii -> bool) (s : string) :
  str_forall p (str_filter p s) = true.
Proof.
  induction s as [|c r IH]; simpl; [reflexivity|].
  destruct (p c) eqn:Hc; simpl; [rewrite Hc|]; exact IH.
Qed.

Lemma str_filter_fixed (p : ascii -> bool) (s : string) :
  str_forall p s = true -> str_filter p s = s.
Proof.
  induction s as [|c r IH]; simpl; [reflexivity|].
  intros H. apply andb_true_iff in H as [Hc Hr].
  rewrite Hc, (IH Hr). reflexivity.
Qed.

Lemma py_or_str (r : string) : py_str (py_or (VStr r) (VStr "")) = r.
Proof.
  unfold py_or; simpl.
  destruct (r =? "")%string eqn:E; simpl; [|reflexivity].
  apply String.eqb_eq in E. now subst.
Qed.

(** C10: [clean_digits] returns decimal digits only, maps [None] to the
    empty string, and applying it to its own result changes nothing. *)
Theorem clean_digits_idempotent :
  forall s : value,
    str_forall is_digit (clean_digits s) = true
    /\ clean_digits VNone = ""
    /\ clean_digits (VStr (clean_digits s)) = clean_digits s.
Proof.
  intros s. split; [|split].
  - apply str_filter_forall.
  - reflexivity.
  - unfold clean_digits at 1. rewrite py_or_str.
    apply str_filter_fixed, str_filter_forall.
Qed.

Lemma take_run_split (s : string) :
  exists post,
    s = take_run s ++ post
    /\ str_forall in_run (take_run s) = true
    /\ str_forall outside_run (String.substring 0 1 post) = true.
Proof.
  induction s as [|c r (post & Hs & Hrun & Hpost)]; simpl.
  - exists "". repeat split.
  - destruct (in_run c) eqn:Hc.
    + exists post. simpl. rewrite Hc, <- Hs. repeat split; assumption.
    + exists (String c r). simpl. unfold outside_run at 1. rewrite Hc.
      repeat split. destruct r; reflexivity.
Qed.

Lemma re_search_run_first (s : string) : first_run s (re_search_run s).
Proof.
  induction s as [|c r IH]; simpl; [reflexivity|].
  destruct (in_run c) eqn:Hc.
  - destruct (take_run_split (String c r)) as (post & Hs & Hrun & Hpost).
    simpl in Hs, Hrun. rewrite Hc in Hs, Hrun.
    exists "", post. simpl in *.
    repeat split; try assumption; reflexivity.
  - destruct (re_search_run r) as [g|]; simpl in *.
    + destruct IH as (pre & post & Hs & Hpre & Hg & Hrun & Hpost).
      exists (String c pre), post. simpl. unfold outside_run at 1.
      rewrite Hc, <- Hs. repeat split; assumption.
    + unfold outside_run at 1. rewrite Hc. exact IH.
Qed.

Lemma num_value (x : value) :
  num x = Ok (match x with
              | VNone | VBool _ => None
              | VInt z => float_of_int z
              | VFloat f => Some f
              | VStr _ | VList _ | VDict _ =>
                match re_search_run (py_str x) with
                | Some g => float_of_str (remove_commas g)
                | None => None
                end
              end).
Proof.
  destruct x; simpl; try reflexivity.
  - unfold py_float_of_int. destruct (float_of_int z); reflexivity.
  - destruct (re_search_run s); [|reflexivity].
    unfold py_float_of_str. destruct (float_of_str _); reflexivity.
  - destruct (re_search_run _); [|reflexivity].
    unfold py_float_of_str. destruct (float_of_str _); reflexivity.
  - destruct (re_search_run _); [|reflexivity].
    unfold py_float_of_str. destruct (float_of_str _); reflexivity.
Qed.

Lemma num_returns (x : value) : exists r, num x = Ok r.
Proof. eexists. apply num_value. Qed.


(** C9, as amended: [num] never raises.  [None] and booleans give [None],
    a float gives itself, an int gives its float value when it has one and
    [None] when the conversion overflows, and any other value gives the
    float read from the first run of digits, dots and commas of its text
    with the commas removed, [None] when there is no run or it does not
    parse. *)
Theorem num_total :
  forall x : value,
    num x = Ok (match x with
                | VNone | VBool _ => None
                | VInt z => float_of_int z
                | VFloat f => Some f
                | VStr _ | VList _ | VDict _ =>
                  match re_search_run (py_str x) with
                  | Some g => float_of_str (remove_commas g)
                  | None => None
                  end
                end)
    /\ first_run (py_str x) (re_search_run (py_str x)).
Proof.
  intros x. split; [apply num_value | apply re_search_run_first].
Qed.

End Utilities.

(** ** The identifier match *)

Section MatchProps.
Context {PF : PyFloat} {PR : PyRepr}.

Lemma exc_any_true {A} (f : A -> exc bool) (l : list A) :
  exc_any f l = Ok true -> exists x, In x l /\ f x = Ok true.
Proof.
  induction l as [|a l IH]; simpl; [discriminate|].
  destruct (f a) as [[|]|e] eqn:E; simpl; intros H.
  - exists a. auto.
  - destruct (IH H) as (x & Hin & Hx). exists x. auto.
  - discriminate.
Qed.

Lemma exc_any_false {A} (f : A -> exc bool) (l : list A) :
  exc_any f l = Ok false -> forall x, In x l -> f x = Ok false.
Proof.
  induction l as [|a l IH]; simpl; [contradiction|].
  destruct (f a) as [[|]|e] eqn:E; simpl; intros H x [<-|Hin];
    try discriminate; auto.
Qed.

Lemma exc_any_returns {A} (f : A -> exc bool) (l : list A) :
  (forall x, In x l -> exists b, f x = Ok b) -> exists b, exc_any f l = Ok b.
Proof.
  induction l as [|a l IH]; simpl; intros H; [eauto|].
  destruct (H a (or_introl eq_refl)) as ([|] & ->); simpl; eauto.
Qed.

Lemma exc_any_pure {A} (g : A -> bool) (l : list A) :
  exc_any (fun x => Ok (g x)) l = Ok (existsb g l).
Proof.
  induction l as [|a l IH]; simpl; [reflexivity|].
  destruct (g a); simpl; [reflexivity | exact IH].
Qed.

Lemma digits_eq_true (t : string) (v : value) :
  digits_eq t v = true <-> clean_digits v = t.
Proof. apply String.eqb_eq. Qed.

Lemma match_direct_dict (l : list (string * value)) (t : string) :
  exists b, match_direct (VDict l) t = Ok b.
Proof. apply exc_any_returns. intros k _. simpl. eauto. Qed.

Lemma match_lists_dict (l : list (string * value)) (t : string) :
  exists b, match_lists (VDict l) t = Ok b.
Proof.
  apply exc_any_returns. intros k _. simpl.
  destruct (py_iter _) as [vs|e]; simpl; [|eauto].
  destruct (exc_any_returns (fun v => Ok (digits_eq t v)) vs) as (b & ->);
    simpl; eauto.
Qed.

Lemma match_direct_raises (d : value) (t : string) (e : exn) :
  match_direct d t = Raise e -> py_get d "gtin" = Raise e.
Proof.
  destruct d as [| | | | | |l];
    try (unfold match_direct, direct_fields; simpl; intros H;
         injection H as <-; reflexivity).
  destruct (match_direct_dict l t) as (b & ->). discriminate.
Qed.

Lemma match_direct_ok (d : value) (t : string) (b : bool) :
  match_direct d t = Ok b -> exists l, d = VDict l.
Proof.
  destruct d; try (unfold match_direct, direct_fields; simpl; discriminate).
  eauto.
Qed.

Lemma match_direct_true (d : value) (t : string) :
  match_direct d t = Ok true ->
  exists v, field_value d v /\ clean_digits v = t.
Proof.
  intros H. apply exc_any_true in H as (k & Hk & Hf).
  destruct (py_get d k) as [v|e] eqn:Eg; simpl in Hf; [|discriminate].
  inversion Hf as [Hv]. exists v. split.
  - eapply FV_direct; eassumption.
  - apply digits_eq_true, Hv.
Qed.

Lemma match_lists_true (d : value) (t : string) :
  match_lists d t = Ok true ->
  exists v, field_value d v /\ clean_digits v = t.
Proof.
  intros H. apply exc_any_true in H as (k & Hk & Hf).
  destruct (py_get d k) as [vals|e] eqn:Eg; simpl in Hf; [|discriminate].
  destruct (py_iter (py_or vals (VList []))) as [l|e] eqn:Ei; simpl in Hf;
    [|discriminate].
  destruct (exc_any _ l) as [[|]|e] eqn:Ea; simpl in Hf; try discriminate.
  apply exc_any_true in Ea as (v & Hin & Hv). inversion Hv as [Hd].
  exists v. split.
  - eapply FV_list; eassumption.
  - apply digits_eq_true, Hd.
Qed.

Lemma match_classifications_true (d : value) (t : string) :
  match_classifications d t = Ok true ->
  exists v, field_value d v /\ clean_digits v = t.
Proof.
  unfold match_classifications. intros H.
  destruct (py_get_default d "classifications" _) as [cls0|e] eqn:E1;
    simpl in H; [|discriminate].
  destruct (py_iter (py_or cls0 _)) as [cls|e] eqn:E2; simpl in H; [|discriminate].
  apply exc_any_true in H as (cl & Hcl & H).
  destruct (py_get_default cl "features" _) as [fs0|e] eqn:E3;
    simpl in H; [|discriminate].
  destruct (py_iter (py_or fs0 _)) as [fs|e] eqn:E4; simpl in H; [|discriminate].
  apply exc_any_true in H as (feat & Hfeat & H).
  unfold match_feature in H.
  destruct (py_get_default feat "featureValues" _) as [fv0|e] eqn:E5;
    simpl in H; [|discriminate].
  destruct (py_iter (py_or fv0 _)) as [fvs|e] eqn:E6; simpl in H; [|discriminate].
  destruct (exc_any _ fvs) as [[|]|e] eqn:E7; simpl in H; try discriminate.
  - apply exc_any_true in E7 as (val & Hval & Hv).
    destruct (py_get val "value") as [v|e] eqn:E8; simpl in Hv; [|discriminate].
    inversion Hv as [Hd]. exists v. split.
    + eapply FV_feature_value; eassumption.
    + apply digits_eq_true, Hd.
  - destruct (py_get feat "value") as [v|e] eqn:E8; simpl in H; [|discriminate].
    inversion H as [Hd]. exists v. split.
    + eapply FV_feature; eassumption.
    + apply digits_eq_true, Hd.
Qed.

Lemma no_match_no_field (d : value) (t : string) :
  match_direct d t = Ok false ->
  match_lists d t = Ok false ->
  match_classifications d t = Ok false ->
  forall v, field_value d v -> digits_eq t v = false.
Proof.
  intros H1 H2 H3 v Hv.
  destruct Hv as [k v Hk Hg
                 |k vals l v Hk Hg Hi Hin
                 |cls0 cls cl fs0 fs feat fv0 fvs val v E1 E2 Hcl E3 E4 Hfeat E5 E6 Hval E7
                 |cls0 cls cl fs0 fs feat v E1 E2 Hcl E3 E4 Hfeat E7].
  - pose proof (exc_any_false _ _ H1 k Hk) as H. simpl in H.
    rewrite Hg in H. simpl in H. congruence.
  - pose proof (exc_any_false _ _ H2 k Hk) as H. simpl in H.
    rewrite Hg in H. simpl in H. rewrite Hi in H. simpl in H.
    rewrite exc_any_pure in H. simpl in H. injection H as H.
    destruct (digits_eq t v) eqn:Ev; [|reflexivity].
    assert (existsb (digits_eq t) l = true) by (apply existsb_exists; eauto).
    congruence.
  - unfold match_classifications in H3. rewrite E1 in H3. simpl in H3.
    rewrite E2 in H3. simpl in H3.
    pose proof (exc_any_false _ _ H3 cl Hcl) as H. simpl in H.
    rewrite E3 in H. simpl in H. rewrite E4 in H. simpl in H.
    pose proof (exc_any_false _ _ H feat Hfeat) as H'. unfold match_feature in H'.
    rewrite E5 in H'. simpl in H'. rewrite E6 in H'. simpl in H'.
    destruct (exc_any _ fvs) as [[|]|e] eqn:Ea; simpl in H'; try discriminate.
    pose proof (exc_any_false _ _ Ea val Hval) as H''. simpl in H''.
    rewrite E7 in H''. simpl in H''. congruence.
  - unfold match_classifications in H3. rewrite E1 in H3. simpl in H3.
    rewrite E2 in H3. simpl in H3.
    pose proof (exc_any_false _ _ H3 cl Hcl) as H. simpl in H.
    rewrite E3 in H. simpl in H. rewrite E4 in H. simpl in H.
    pose proof (exc_any_false _ _ H feat Hfeat) as H'. unfold match_feature in H'.
    destruct (py_get_default feat "featureValues" _) as [fv0|e]; simpl in H';
      [|discriminate].
    destruct (py_iter (py_or fv0 _)) as [fvs|e]; simpl in H'; [|discriminate].
    destruct (exc_any _ fvs) as [[|]|e]; simpl in H'; try discriminate.
    rewrite E7 in H'. simpl in H'. congruence.
Qed.

Lemma match_classifications_absent (l : list (string * value)) (t : string) :
  lookup "classifications" l = None ->
  match_classifications (VDict l) t = Ok false.
Proof.
  intros H. unfold match_classifications, py_get_default. rewrite H. reflexivity.
Qed.

(** C3, as amended: [upc_matches] compares digit strings for equality, the
    digit string of a value being [clean_digits] of it.  An identifier
    whose digit string is empty gives [False] at once.  Whenever the call
    returns, it returns [True] exactly when the digit string of the
    identifier is not empty and equals that of a direct identifier field,
    of an element of an identifier list, or of a classification feature
    value.  It raises only on a record that is not an object, or from the
    walk over the classifications when no direct field and no list element
    matched; a record without classifications never raises. *)
Theorem upc_matches_by_digits :
  forall d upc : value,
    (clean_digits upc = "" -> upc_matches d upc = Ok false)
    /\ match upc_matches d upc with
       | Ok b =>
         b = true <->
         ((clean_digits upc =? "")%string = false
          /\ exists v, field_value d v /\ clean_digits v = clean_digits upc)
       | Raise e =>
         (clean_digits upc =? "")%string = false
         /\ (py_get d "gtin" = Raise e
             \/ (match_direct d (clean_digits upc) = Ok false
                 /\ match_lists d (clean_digits upc) = Ok false
                 /\ match_classifications d (clean_digits upc) = Raise e))
       end
    /\ (forall l, d = VDict l -> lookup "classifications" l = None ->
                  exists b, upc_matches d upc = Ok b).
Proof.
  intros d upc. split; [|split].
  { intros H. unfold upc_matches. rewrite H. reflexivity. }
  - unfold upc_matches.
    destruct (clean_digits upc =? "")%string eqn:Et.
    { split; [discriminate | intros [H _]; discriminate]. }
    destruct (match_direct d (clean_digits upc)) as [[|]|e] eqn:E1; simpl.
    + split; [intros _ | reflexivity].
      split; [reflexivity | apply match_direct_true, E1].
    + destruct (match_direct_ok _ _ E1) as (l & ->).
      destruct (match_lists (VDict l) (clean_digits upc)) as [[|]|e] eqn:E2; simpl.
      * split; [intros _ | reflexivity].
        split; [reflexivity | apply match_lists_true, E2].
      * destruct (match_classifications (VDict l) (clean_digits upc))
          as [[|]|e] eqn:E3.
        -- split; [intros _ | reflexivity].
           split; [reflexivity | apply match_classifications_true, E3].
        -- split; [discriminate|]. intros (_ & v & Hv & Heq).
           pose proof (@no_match_no_field _ _ E1 E2 E3 _ Hv) as Hn.
           apply digits_eq_true in Heq. congruence.
        -- split; [reflexivity|]. right. repeat split.
      * destruct (match_lists_dict l (clean_digits upc)) as (b & Hb). congruence.
    + split; [reflexivity|]. left.
      apply match_direct_raises with (t := clean_digits upc), E1.
  - intros l -> Hl. unfold upc_matches.
    destruct (clean_digits upc =? "")%string; [eauto|].
    destruct (match_direct_dict l (clean_digits upc)) as ([|] & ->); simpl; [eauto|].
    destruct (match_lists_dict l (clean_digits upc)) as ([|] & ->); simpl; [eauto|].
    rewrite (match_classifications_absent l _ Hl). eauto.
Qed.

End MatchProps.

(** ** Running computations *)

Section RunProps.
Context {PF : PyFloat} {PR : PyRepr} {PL : Platform}.

Lemma result_bind {A B} (m : M A) (k : A -> M B) (w : world) :
  result (bind m k w)
  = match result (m w) with
    | Ok a => result (k a (final (m w)))
    | Raise e => Raise e
    end.
Proof. unfold bind. destruct (result (m w)); reflexivity. Qed.

Lemma final_bind {A B} (m : M A) (k : A -> M B) (w : world) :
  final (bind m k w)
  = match result (m w) with
    | Ok a => final (k a (final (m w)))
    | Raise _ => final (m w)
    end.
Proof. unfold bind. destruct (result (m w)); reflexivity. Qed.

Lemma calls_bind {A B} (m : M A) (k : A -> M B) (w : world) :
  calls (bind m k w)
  = (calls (m w) ++ match result (m w) with
                    | Ok a => calls (k a (final (m w)))
                    | Raise _ => []
                    end)%list.
Proof.
  unfold bind. destruct (result (m w)); simpl; [reflexivity|].
  now rewrite app_nil_r.
Qed.

Lemma rows_bind {A B} (m : M A) (k : A -> M B) (w : world) :
  rows (bind m k w)
  = (rows (m w) ++ match result (m w) with
                   | Ok a => rows (k a (final (m w)))
                   | Raise _ => []
                   end)%list.
Proof.
  unfold bind. destruct (result (m w)); simpl; [reflexivity|].
  now rewrite app_nil_r.
Qed.

Lemma result_try {A} (m : M A) (h : exn -> M A) (w : world) :
  result (try_catch m h w)
  = match result (m w) with
    | Ok a => Ok a
    | Raise e => result (h e (final (m w)))
    end.
Proof. unfold try_catch. destruct (result (m w)) eqn:E; simpl; congruence. Qed.

Lemma calls_try {A} (m : M A) (h : exn -> M A) (w : world) :
  calls (try_catch m h w)
  = (calls (m w) ++ match result (m w) with
                    | Ok _ => []
                    | Raise e => calls (h e (final (m w)))
                    end)%list.
Proof.
  unfold try_catch. destruct (result (m w)); simpl; [|reflexivity].
  now rewrite app_nil_r.
Qed.

Lemma rows_try {A} (m : M A) (h : exn -> M A) (w : world) :
  rows (try_catch m h w)
  = (rows (m w) ++ match result (m w) with
                   | Ok _ => []
                   | Raise e => rows (h e (final (m w)))
                   end)%list.
Proof.
  unfold try_catch. destruct (result (m w)); simpl; [|reflexivity].
  now rewrite app_nil_r.
Qed.

Lemma final_try {A} (m : M A) (h : exn -> M A) (w : world) :
  final (try_catch m h w)
  = match result (m w) with
    | Ok _ => final (m w)
    | Raise e => final (h e (final (m w)))
    end.
Proof. unfold try_catch. destruct (result (m w)); reflexivity. Qed.

(** *** Records *)

Lemma silent_ret {A} (a : A) : silent (ret a).
Proof. intros w. reflexivity. Qed.

Lemma silent_raise {A} (e : exn) : silent (@raise _ _ A e).
Proof. intros w. reflexivity. Qed.

Lemma silent_lift {A} (m : exc A) : silent (lift m).
Proof. intros w. reflexivity. Qed.

Lemma silent_send (op : api_op) (rq : request) : silent (send op rq).
Proof. intros w. reflexivity. Qed.

Lemma silent_sleep (d : Q) : silent (do_sleep d).
Proof. intros w. reflexivity. Qed.

Lemma silent_bind {A B} (m : M A) (k : A -> M B) :
  silent m -> (forall a, silent (k a)) -> silent (bind m k).
Proof.
  intros Hm Hk w. rewrite rows_bind, Hm.
  destruct (result (m w)); [apply Hk | reflexivity].
Qed.

Lemma silent_try {A} (m : M A) (h : exn -> M A) :
  silent m -> (forall e, silent (h e)) -> silent (try_catch m h).
Proof.
  intros Hm Hh w. rewrite rows_try, Hm.
  destruct (result (m w)); [reflexivity | apply Hh].
Qed.

Create HintDb silent.
#[local] Hint Resolve silent_ret silent_raise silent_lift silent_send
  silent_sleep : silent.

Ltac silence :=
  repeat first
    [ apply silent_bind; [|intros ?]
    | apply silent_try; [|intros ?]
    | solve [auto with silent]
    | match goal with
      | |- silent (if ?b then _ else _) => destruct b
      | |- silent (match ?x with _ => _ end) => destruct x
      end ].

Lemma silent_occ_search (q : value) : silent (occ_search q).
Proof. unfold occ_search. silence. Qed.

Lemma silent_occ_detail (code : value) : silent (occ_detail code).
Proof. unfold occ_detail. silence. Qed.

Lemma silent_cart_create : silent cart_create.
Proof. unfold cart_create. silence. Qed.

Lemma silent_add_entry (cid code : value) : silent (cart_add_entry cid code).
Proof. unfold cart_add_entry. silence. Qed.

Lemma silent_get_prices (cid : value) (i : Z) : silent (cart_get_prices cid i).
Proof. unfold cart_get_prices. silence. Qed.

Lemma silent_remove (cid : value) (i : Z) : silent (cart_remove cid i).
Proof. unfold cart_remove. silence. Qed.

Lemma silent_find_products (upc : value) : silent (find_products upc).
Proof.
  unfold find_products. apply silent_bind; [apply silent_occ_search|].
  intros found. destruct (truthy found);
    [apply silent_ret | apply silent_occ_search].
Qed.

Lemma silent_pick (upc : value) (items : list value) : silent (pick upc items).
Proof.
  induction items as [|pdt rest IH]; simpl; [apply silent_ret|].
  apply silent_bind; [apply silent_lift|]. intros code.
  destruct (truthy code); simpl; [|exact IH].
  apply silent_bind; [apply silent_occ_detail|]. intros dj.
  destruct (truthy dj); [|exact IH].
  apply silent_bind; [apply silent_lift|]. intros [|]; [apply silent_ret | exact IH].
Qed.

Lemma remove_returns (cid : value) (i : Z) (w : world) :
  result (cart_remove cid i w) = Ok tt.
Proof.
  unfold cart_remove. rewrite result_try, result_bind. unfold send; simpl.
  destruct (fst (http _ w)); reflexivity.
Qed.

Lemma records_one_append (upc : value) (a b c : string) :
  records_one upc (append_row upc a b c).
Proof. intros w. simpl. eexists. split; reflexivity. Qed.

Lemma records_one_bind {A} (upc : value) (m : M A) (k : A -> M unit) :
  silent m -> (forall a, records_one upc (k a)) -> records_one upc (bind m k).
Proof.
  intros Hm Hk w. rewrite result_bind, rows_bind, Hm.
  destruct (result (m w)) as [a|e]; simpl; [apply Hk | reflexivity].
Qed.

Lemma records_one_cleanup (upc cid : value) (a b c : string) :
  records_one upc (append_row upc a b c ;;; cart_remove cid 0)%M.
Proof.
  intros w. rewrite result_bind, rows_bind. simpl.
  rewrite remove_returns, silent_remove. eexists. split; reflexivity.
Qed.

Lemma records_one_read_price (cid upc : value) (name : string) :
  records_one upc (read_price cid upc name).
Proof.
  unfold read_price.
  apply records_one_bind; [apply silent_sleep|]. intros _.
  apply records_one_bind; [apply silent_get_prices|]. intros got.
  apply records_one_bind.
  { destruct got; [apply silent_ret|].
    apply silent_bind; [apply silent_sleep | intros _; apply silent_get_prices]. }
  intros [[[base total] name2]|]; [|apply records_one_cleanup].
  apply records_one_bind; [apply silent_lift|]. intros sin.
  apply records_one_bind; [apply silent_lift|]. intros con.
  apply records_one_cleanup.
Qed.

Lemma records_one_item_body (cid upc : value) : records_one upc (item_body cid upc).
Proof.
  unfold item_body.
  apply records_one_bind; [apply silent_find_products|]. intros products.
  destruct (truthy products); simpl; [|apply records_one_append].
  apply records_one_bind; [apply silent_lift|]. intros items.
  apply records_one_bind; [apply silent_pick|]. intros [picked detail].
  destruct (truthy picked); simpl; [|apply records_one_append].
  apply records_one_bind; [apply silent_lift|]. intros code.
  apply records_one_bind; [apply silent_lift|]. intros name.
  apply records_one_bind; [apply silent_add_entry|]. intros [|]; simpl.
  - apply records_one_read_price.
  - apply records_one_append.
Qed.

Lemma process_upc_records (cid upc : value) (w : world) :
  result (process_upc cid upc w) = Ok tt
  /\ exists r, rows (process_upc cid upc w) = [r] /\ UPC r = upc.
Proof.
  unfold process_upc. rewrite result_try, rows_try.
  pose proof (records_one_item_body cid upc w) as H.
  destruct (result (item_body cid upc w)) as [[]|e].
  - split; [reflexivity|]. rewrite app_nil_r. exact H.
  - rewrite H. simpl. split; [reflexivity|]. eexists. split; reflexivity.
Qed.

Lemma scrape_records (cid : value) (upcs : list value) (w : world) :
  result (scrape cid upcs w) = Ok tt
  /\ map UPC (rows (scrape cid upcs w)) = upcs.
Proof.
  revert w. induction upcs as [|upc rest IH]; intros w; simpl.
  - split; reflexivity.
  - rewrite result_bind, rows_bind.
    destruct (process_upc_records cid upc w) as (-> & r & -> & Hr).
    destruct (IH (final (process_upc cid upc w))) as (-> & Hrest).
    split; [reflexivity|]. simpl. now rewrite Hr, Hrest.
Qed.

(** C1: every iteration returns and appends exactly one record, for its
    identifier; the loop over the list returns with the identifiers of its
    records equal to the list; and a run of [main] either completes with
    that list of records or stops at the creation of the cart, before any
    identifier is looked at. *)
Theorem one_record_per_identifier :
  (forall (cid upc : value) (w : world),
      result (process_upc cid upc w) = Ok tt
      /\ exists r, rows (process_upc cid upc w) = [r] /\ UPC r = upc)
  /\ (forall (cid : value) (upcs : list value) (w : world),
         result (scrape cid upcs w) = Ok tt
         /\ map UPC (rows (scrape cid upcs w)) = upcs)
  /\ (forall (upcs : list value) (w : world),
         (result (main upcs w) = Ok tt
          /\ map UPC (rows (main upcs w)) = upcs)
         \/ (exists e, result (main upcs w) = Raise e
                       /\ calls (main upcs w) = calls (cart_create w)
                       /\ rows (main upcs w) = [])).
Proof.
  split; [exact process_upc_records|]. split; [exact scrape_records|].
  intros upcs w. unfold main.
  assert (Hs : rows (cart_create w) = []) by apply silent_cart_create.
  rewrite result_bind, rows_bind, calls_bind, Hs.
  destruct (result (cart_create w)) as [cid|e].
  - destruct (truthy cid); simpl.
    + left. apply scrape_records.
    + right. exists no_cart. rewrite app_nil_r. repeat split.
  - right. exists e. rewrite app_nil_r. repeat split.
Qed.

Lemma scrape_app (cid : value) (l1 l2 : list value) (w : world) :
  result (scrape cid (l1 ++ l2) w) = result (scrape cid l2 (final (scrape cid l1 w)))
  /\ final (scrape cid (l1 ++ l2) w) = final (scrape cid l2 (final (scrape cid l1 w)))
  /\ rows (scrape cid (l1 ++ l2) w)
     = (rows (scrape cid l1 w) ++ rows (scrape cid l2 (final (scrape cid l1 w))))%list.
Proof.
  revert w. induction l1 as [|upc rest IH]; intros w; simpl.
  - repeat split.
  - rewrite !result_bind, !final_bind, !rows_bind.
    destruct (process_upc_records cid upc w) as (-> & _).
    destruct (IH (final (process_upc cid upc w))) as (-> & -> & ->).
    rewrite app_assoc. repeat split.
Qed.

(** C5: when the processing of an identifier raises, the run goes on: the
    records of the identifiers before it are kept, the identifier gets the
    record with "-" in both price columns and the message of the exception
    in the name column, and every identifier after it gets its record. *)
Theorem failure_is_per_item :
  forall (cid : value) (before : list value) (upc : value) (after : list value)
         (e : exn) (w : world),
    result (item_body cid upc (final (scrape cid before w))) = Raise e ->
    result (scrape cid (before ++ upc :: after) w) = Ok tt
    /\ rows (scrape cid (before ++ upc :: after) w)
       = (rows (scrape cid before w)
          ++ error_row upc e
               (now_str (final (item_body cid upc (final (scrape cid before w)))))
          :: rows (scrape cid after
                     (final (process_upc cid upc (final (scrape cid before w))))))%list
    /\ map UPC (rows (scrape cid after
                        (final (process_upc cid upc (final (scrape cid before w))))))
       = after.
Proof.
  intros cid before upc after e w He.
  destruct (scrape_app cid before (upc :: after) w) as (Hr & _ & Hrows).
  split; [apply scrape_records|]. split; [|apply scrape_records].
  rewrite Hrows. f_equal. simpl. rewrite rows_bind.
  destruct (process_upc_records cid upc (final (scrape cid before w))) as (-> & _).
  f_equal. unfold process_upc. rewrite rows_try, He.
  pose proof (records_one_item_body cid upc (final (scrape cid before w))) as H.
  rewrite He in H. rewrite H. reflexivity.
Qed.

(** *** Counting requests *)

Lemma count_op_app (op : api_op) (t1 t2 : list call) :
  count_op op (t1 ++ t2) = (count_op op t1 + count_op op t2)%nat.
Proof. unfold count_op, by_op. now rewrite filter_app, length_app. Qed.

Lemma at_most_ret (op : api_op) {A} (a : A) : at_most op 0 (ret a).
Proof. intros w. apply Nat.le_refl. Qed.

Lemma at_most_lift (op : api_op) {A} (m : exc A) : at_most op 0 (lift m).
Proof. intros w. apply Nat.le_refl. Qed.

Lemma at_most_sleep (op : api_op) (d : Q) : at_most op 0 (do_sleep d).
Proof. intros w. apply Nat.le_refl. Qed.

Lemma at_most_append (op : api_op) (upc : value) (a b c : string) :
  at_most op 0 (append_row upc a b c).
Proof. intros w. apply Nat.le_refl. Qed.

Lemma at_most_send (op op' : api_op) (rq : request) :
  at_most op (uses op' op) (send op' rq).
Proof.
  intros w. unfold count_op, by_op, uses. simpl.
  destruct (op_eqb op' op); apply Nat.le_refl.
Qed.

Lemma at_most_bind (op : api_op) {A B} (m : M A) (k : A -> M B) (n n' : nat) :
  at_most op n m -> (forall a, at_most op n' (k a)) -> at_most op (n + n') (bind m k).
Proof.
  intros Hm Hk w. rewrite calls_bind, count_op_app.
  apply Nat.add_le_mono; [apply Hm|].
  destruct (result (m w)); [apply Hk | apply Nat.le_0_l].
Qed.

Lemma at_most_try (op : api_op) {A} (m : M A) (h : exn -> M A) (n n' : nat) :
  at_most op n m -> (forall e, at_most op n' (h e)) ->
  at_most op (n + n') (try_catch m h).
Proof.
  intros Hm Hh w. rewrite calls_try, count_op_app.
  apply Nat.add_le_mono; [apply Hm|].
  destruct (result (m w)); [apply Nat.le_0_l | apply Hh].
Qed.

Lemma at_most_bind_lift (op : api_op) {A B} (m : exc A) (k : A -> M B) (n : nat) :
  (forall a, m = Ok a -> at_most op n (k a)) -> at_most op n (bind (lift m) k).
Proof.
  intros Hk w. rewrite calls_bind. simpl.
  destruct m as [a|e]; [apply (Hk a eq_refl) | apply Nat.le_0_l].
Qed.

Lemma at_most_le (op : api_op) {A} (m : M A) (n n' : nat) :
  (n <= n')%nat -> at_most op n m -> at_most op n' m.
Proof. intros Hn Hm w. eapply Nat.le_trans; [apply Hm | exact Hn]. Qed.

Lemma at_most_occ_search (op : api_op) (q : value) :
  at_most op (uses OpSearch op) (occ_search q).
Proof.
  unfold occ_search. eapply at_most_le;
    [|apply at_most_bind; [apply at_most_send | intros r; apply at_most_lift]].
  lia.
Qed.

Lemma at_most_occ_detail (op : api_op) (code : value) :
  at_most op (uses OpDetail op) (occ_detail code).
Proof.
  unfold occ_detail. eapply at_most_le;
    [|apply at_most_bind; [apply at_most_send | intros r; apply at_most_lift]].
  lia.
Qed.

Lemma at_most_add_entry (op : api_op) (cid code : value) :
  at_most op (uses OpAddEntry op) (cart_add_entry cid code).
Proof.
  unfold cart_add_entry. eapply at_most_le;
    [|apply at_most_bind; [apply at_most_send | intros r; apply at_most_ret]].
  lia.
Qed.

Lemma at_most_get_prices (op : api_op) (cid : value) (i : Z) :
  at_most op (uses OpGetPrices op) (cart_get_prices cid i).
Proof.
  unfold cart_get_prices. eapply at_most_le;
    [|apply at_most_bind; [apply at_most_send | intros r; apply at_most_lift]].
  lia.
Qed.

Lemma at_most_remove (op : api_op) (cid : value) (i : Z) :
  at_most op (uses OpRemove op) (cart_remove cid i).
Proof.
  unfold cart_remove. eapply at_most_le;
    [|apply at_most_try;
      [apply at_most_bind; [apply at_most_send | intros r; apply at_most_ret]
      |intros e; apply at_most_ret]].
  lia.
Qed.

Lemma at_most_find_products (op : api_op) (upc : value) :
  at_most op (2 * uses OpSearch op) (find_products upc).
Proof.
  unfold find_products. eapply at_most_le;
    [|apply at_most_bind; [apply at_most_occ_search|]].
  2: { intros found. destruct (truthy found).
       - eapply at_most_le; [|apply at_most_ret]. apply Nat.le_0_l.
       - apply at_most_occ_search. }
  lia.
Qed.

Lemma at_most_pick (op : api_op) (upc : value) (items : list value) :
  at_most op (List.length items * uses OpDetail op) (pick upc items).
Proof.
  induction items as [|pdt rest IH]; simpl; [apply at_most_ret|].
  eapply at_most_le; [|apply at_most_bind; [apply at_most_lift|]].
  2: { intros code. destruct (truthy code); simpl.
       - apply at_most_bind; [apply at_most_occ_detail|]. intros dj.
         destruct (truthy dj); [|exact IH].
         eapply at_most_le; [|apply at_most_bind; [apply at_most_lift|]].
         2: { intros [|]; [|exact IH].
              eapply at_most_le; [|apply at_most_ret]. apply Nat.le_0_l. }
         simpl. apply Nat.le_refl.
       - eapply at_most_le; [|exact IH]. lia. }
  lia.
Qed.

Lemma at_most_cleanup (op : api_op) (cid upc : value) (a b c : string) :
  at_most op (uses OpRemove op) (append_row upc a b c ;;; cart_remove cid 0)%M.
Proof.
  eapply at_most_le;
    [|apply at_most_bind; [apply at_most_append | intros _; apply at_most_remove]].
  lia.
Qed.

Lemma at_most_read_price (op : api_op) (cid upc : value) (name : string) :
  at_most op (2 * uses OpGetPrices op + uses OpRemove op) (read_price cid upc name).
Proof.
  unfold read_price.
  eapply at_most_le; [|apply at_most_bind; [apply at_most_sleep|]].
  2: { intros _. apply at_most_bind; [apply at_most_get_prices|]. intros got.
       apply at_most_bind with (n := uses OpGetPrices op).
       - destruct got.
         + eapply at_most_le; [|apply at_most_ret]. apply Nat.le_0_l.
         + eapply at_most_le;
             [|apply at_most_bind;
               [apply at_most_sleep | intros _; apply at_most_get_prices]].
           lia.
       - intros [[[base total] name2]|]; [|apply at_most_cleanup].
         eapply at_most_le; [|apply at_most_bind; [apply at_most_lift|]].
         2: { intros sin. apply at_most_bind; [apply at_most_lift|].
              intros con. apply at_most_cleanup. }
         lia. }
  lia.
Qed.

(** what follows the loop over the candidates in [item_body] *)
Lemma at_most_after_pick (op : api_op) (cid upc picked detail : value) :
  at_most op (uses OpAddEntry op + (2 * uses OpGetPrices op + uses OpRemove op))
          (if negb (truthy picked) then not_found upc
           else
             code <- lift (py_get picked "code") ;;
             name <- lift (resolved_name detail picked) ;;
             added <- cart_add_entry cid code ;;
             if negb added then append_row upc "-" "-" name
             else read_price cid upc name)%M.
Proof.
  destruct (truthy picked); cbn [negb].
  2: { eapply at_most_le; [|apply at_most_append]. apply Nat.le_0_l. }
  eapply at_most_le; [|apply at_most_bind; [apply at_most_lift|]].
  2: { intros code. apply at_most_bind; [apply at_most_lift|]. intros name.
       apply at_most_bind; [apply at_most_add_entry|]. intros [|]; simpl.
       - apply at_most_read_price.
       - eapply at_most_le; [|apply at_most_append]. apply Nat.le_0_l. }
  lia.
Qed.

(** what follows the search in [item_body], for the products it returned *)
Lemma at_most_after_search (op : api_op) (cid upc products : value) :
  at_most op (candidates (Ok products) * uses OpDetail op
              + (uses OpAddEntry op
                 + (2 * uses OpGetPrices op + uses OpRemove op)))
          (if negb (truthy products) then not_found upc
           else
             items <- lift (py_iter products) ;;
             pd <- pick upc items ;;
             let '(picked, detail) := pd in
             if negb (truthy picked) then not_found upc
             else
               code <- lift (py_get picked "code") ;;
               name <- lift (resolved_name detail picked) ;;
               added <- cart_add_entry cid code ;;
               if negb added then append_row upc "-" "-" name
               else read_price cid upc name)%M.
Proof.
  destruct (truthy products); cbn [negb].
  2: { eapply at_most_le; [|apply at_most_append]. apply Nat.le_0_l. }
  apply at_most_bind_lift. intros items Hitems.
  unfold candidates, candidate_list. rewrite Hitems.
  apply at_most_bind; [apply at_most_pick|]. intros [picked detail].
  apply at_most_after_pick.
Qed.

Lemma count_process_upc (op : api_op) (cid upc : value) (w : world) :
  (count_op op (calls (process_upc cid upc w))
   <= 2 * uses OpSearch op
      + (candidates (result (find_products upc w)) * uses OpDetail op
         + (uses OpAddEntry op
            + (2 * uses OpGetPrices op + uses OpRemove op))))%nat.
Proof.
  unfold process_upc. rewrite calls_try, count_op_app.
  replace (count_op op match result (item_body cid upc w) with
                       | Ok _ => []
                       | Raise e => calls (append_row upc "-" "-" (error_row_name e)
                                                      (final (item_body cid upc w)))
                       end) with O by (destruct (result _); reflexivity).
  rewrite Nat.add_0_r. unfold item_body. rewrite calls_bind, count_op_app.
  apply Nat.add_le_mono; [apply at_most_find_products|].
  destruct (result (find_products upc w)) as [products|e]; [|apply Nat.le_0_l].
  apply at_most_after_search.
Qed.

(** C8, as amended: for one identifier the run issues at most 2 search
    calls, at most one detail-fetch call per candidate of the search result
    (the search asks for page 0 with page size 24), at most 1 cart-add call,
    at most 2 price-read calls and at most 1 entry-removal call, and no call
    that creates or looks up the cart. *)
Theorem calls_per_identifier :
  forall (cid upc : value) (w : world),
    let t := calls (process_upc cid upc w) in
    (count_op OpSearch t <= 2
     /\ count_op OpDetail t <= candidates (result (find_products upc w))
     /\ count_op OpAddEntry t <= 1
     /\ count_op OpGetPrices t <= 2
     /\ count_op OpRemove t <= 1
     /\ count_op OpCartCreate t + count_op OpCartList t + count_op OpCartCurrent t = 0)%nat
    /\ lookup "pageSize" (rq_params (search_request upc)) = Some (VStr "24")
    /\ lookup "currentPage" (rq_params (search_request upc)) = Some (VStr "0").
Proof.
  intros cid upc w t. subst t. split; [|split; reflexivity].
  pose proof (fun op => count_process_upc op cid upc w) as H.
  pose proof (H OpSearch) as H1. pose proof (H OpDetail) as H2.
  pose proof (H OpAddEntry) as H3. pose proof (H OpGetPrices) as H4.
  pose proof (H OpRemove) as H5. pose proof (H OpCartCreate) as H6.
  pose proof (H OpCartList) as H7. pose proof (H OpCartCurrent) as H8.
  unfold uses in *. simpl in *. lia.
Qed.

(** *** The order of steps *)











Lemma truthy_with_code (pdt code : value) :
  py_get pdt "code" = Ok code -> truthy code = true -> truthy pdt = true.
Proof.
  destruct pdt as [| | | | | |l]; try discriminate.
  destruct l as [|kv l]; [|reflexivity].
  simpl. intros H. injection H as <-. discriminate.
Qed.








(** *** What each client method does with one request *)

Lemma search_run (q : value) (w : world) :
  let c := Call OpSearch (search_request q) (fst (http (search_request q) w)) in
  calls (occ_search q w) = [c]
  /\ result (occ_search q w) = searched c
  /\ final (occ_search q w) = snd (http (search_request q) w).
Proof.
  unfold occ_search, searched. rewrite calls_bind, result_bind, final_bind.
  unfold send. cbn [calls result final c_out].
  destruct (fst (http _ w)); repeat split.
Qed.

Lemma detail_run (code : value) (w : world) :
  let c := Call OpDetail (detail_request code) (fst (http (detail_request code) w)) in
  calls (occ_detail code w) = [c]
  /\ result (occ_detail code w) = detailed c
  /\ final (occ_detail code w) = snd (http (detail_request code) w).
Proof.
  unfold occ_detail, detailed. rewrite calls_bind, result_bind, final_bind.
  unfold send. cbn [calls result final c_out].
  destruct (fst (http _ w)); repeat split.
Qed.

Lemma add_entry_run (cid code : value) (w : world) :
  let c := Call OpAddEntry (add_entry_request cid code 1)
                (fst (http (add_entry_request cid code 1) w)) in
  calls (cart_add_entry cid code w) = [c]
  /\ (forall b, result (cart_add_entry cid code w) = Ok b -> added c = b).
Proof.
  unfold cart_add_entry, added. rewrite calls_bind, result_bind.
  unfold send. cbn [calls result final c_out].
  destruct (fst (http _ w)); split; try reflexivity; intros b H;
    [now injection H | discriminate].
Qed.

Lemma get_prices_run (cid : value) (w : world) :
  let c := Call OpGetPrices (prices_request cid) (fst (http (prices_request cid) w)) in
  calls (cart_get_prices cid 0 w) = [c]
  /\ result (cart_get_prices cid 0 w) = read c.
Proof.
  unfold cart_get_prices, read. rewrite calls_bind, result_bind.
  unfold send. cbn [calls result final c_out].
  destruct (fst (http _ w)); repeat split.
Qed.

Lemma remove_run (cid : value) (w : world) :
  calls (cart_remove cid 0 w)
  = [Call OpRemove (remove_request cid 0) (fst (http (remove_request cid 0) w))].
Proof.
  unfold cart_remove. rewrite calls_try, calls_bind, result_bind.
  unfold send. cbn [calls result final].
  destruct (fst (http _ w)); reflexivity.
Qed.

Lemma count_zero_nil (op : api_op) (t : list call) :
  (count_op op t <= 0)%nat -> by_op op t = [].
Proof.
  unfold count_op. intros H. apply length_zero_iff_nil. lia.
Qed.

Lemma by_op_app (op : api_op) (t1 t2 : list call) :
  by_op op (t1 ++ t2) = (by_op op t1 ++ by_op op t2)%list.
Proof. apply filter_app. Qed.

(** *** The search and its fallback *)

Lemma find_products_fallback (upc : value) (w : world) :
  no_products (result (occ_search upc w)) = true ->
  calls (find_products upc w)
  = (calls (occ_search upc w)
     ++ calls (occ_search (fallback_query upc) (final (occ_search upc w))))%list
  /\ result (find_products upc w)
     = result (occ_search (fallback_query upc) (final (occ_search upc w)))
  /\ final (find_products upc w)
     = final (occ_search (fallback_query upc) (final (occ_search upc w))).
Proof.
  intros H. unfold find_products. rewrite calls_bind, result_bind, final_bind.
  destruct (result (occ_search upc w)) as [found|e]; [|discriminate].
  simpl in H. apply negb_true_iff in H. rewrite H. repeat split.
Qed.

Lemma find_products_direct (upc : value) (w : world) :
  no_products (result (occ_search upc w)) = false ->
  calls (find_products upc w) = calls (occ_search upc w)
  /\ result (find_products upc w) = result (occ_search upc w).
Proof.
  intros H. unfold find_products. rewrite calls_bind, result_bind.
  destruct (result (occ_search upc w)) as [found|e].
  - simpl in H. apply negb_false_iff in H. rewrite H. simpl.
    rewrite app_nil_r. split; reflexivity.
  - rewrite app_nil_r. split; reflexivity.
Qed.

Lemma calls_process_upc (cid upc : value) (w : world) :
  calls (process_upc cid upc w) = calls (item_body cid upc w).
Proof.
  unfold process_upc. rewrite calls_try.
  destruct (result (item_body cid upc w)); apply app_nil_r.
Qed.

Lemma no_search_after_search (cid upc products : value) (w : world) :
  by_op OpSearch
        (calls ((if negb (truthy products) then not_found upc
                 else
                   items <- lift (py_iter products) ;;
                   pd <- pick upc items ;;
                   let '(picked, detail) := pd in
                   if negb (truthy picked) then not_found upc
                   else
                     code <- lift (py_get picked "code") ;;
                     name <- lift (resolved_name detail picked) ;;
                     added <- cart_add_entry cid code ;;
                     if negb added then append_row upc "-" "-" name
                     else read_price cid upc name)%M w)) = [].
Proof.
  apply count_zero_nil.
  eapply Nat.le_trans; [apply (at_most_after_search OpSearch cid upc products w)|].
  unfold uses. simpl. lia.
Qed.

(** C6, as amended: when the first search returns no products, one more
    search is issued, for the identifier prefixed with
    ":relevance:freeText:", and no other; and when that search returns no
    products either, nothing else is requested and the identifier is
    recorded as "No encontrado" with "-" in both price columns. *)
Theorem search_fallback :
  forall (cid upc : value) (w : world),
    no_products (result (occ_search upc w)) = true ->
    by_op OpSearch (calls (process_upc cid upc w))
    = (calls (occ_search upc w)
       ++ calls (occ_search (fallback_query upc) (final (occ_search upc w))))%list
    /\ map c_req (calls (occ_search (fallback_query upc) (final (occ_search upc w))))
       = [search_request (VStr (":relevance:freeText:" ++ py_str upc))]
    /\ count_op OpSearch (calls (process_upc cid upc w)) = 2%nat
    /\ (no_products
          (result (occ_search (fallback_query upc) (final (occ_search upc w)))) = true ->
        calls (process_upc cid upc w)
        = (calls (occ_search upc w)
           ++ calls (occ_search (fallback_query upc) (final (occ_search upc w))))%list
        /\ rows (process_upc cid upc w)
           = [not_found_row upc
                (now_str (final (occ_search (fallback_query upc)
                                            (final (occ_search upc w)))))]).
Proof.
  intros cid upc w H1.
  destruct (find_products_fallback upc w H1) as (Hc & Hr & Hf).
  destruct (search_run upc w) as (Hc1 & _ & _).
  destruct (search_run (fallback_query upc) (final (occ_search upc w)))
    as (Hc2 & _ & _).
  assert (Hs : by_op OpSearch (calls (process_upc cid upc w))
               = (calls (occ_search upc w)
                  ++ calls (occ_search (fallback_query upc)
                                       (final (occ_search upc w))))%list).
  { rewrite calls_process_upc. unfold item_body. rewrite calls_bind, by_op_app, Hc.
    destruct (result (find_products upc w)) as [products|e].
    - rewrite no_search_after_search, app_nil_r, Hc1, Hc2. reflexivity.
    - rewrite app_nil_r, Hc1, Hc2. reflexivity. }
  split; [exact Hs|]. split; [rewrite Hc2; reflexivity|].
  split; [unfold count_op; rewrite Hs, Hc1, Hc2; reflexivity|].
  intros H2. unfold process_upc. rewrite calls_try, rows_try.
  unfold item_body. rewrite calls_bind, rows_bind, result_bind, Hc, Hr, Hf.
  assert (Hsil : rows (find_products upc w) = []) by apply silent_find_products.
  rewrite Hsil.
  destruct (result (occ_search (fallback_query upc) (final (occ_search upc w))))
    as [v2|e]; [|discriminate].
  simpl in H2. rewrite H2. simpl. rewrite !app_nil_r. split; reflexivity.
Qed.

(** *** The candidate that is picked *)

Lemma pick_calls (upc : value) (items : list value) (w : world) :
  Forall (fun c => c_op c = OpDetail
                   /\ exists pdt code,
                       In pdt items /\ py_get pdt "code" = Ok code
                       /\ c_req c = detail_request code)
         (calls (pick upc items w)).
Proof.
  revert w. induction items as [|pdt rest IH]; intros w; simpl; [constructor|].
  assert (IH' : forall w', Forall (fun c => c_op c = OpDetail
                   /\ exists pdt0 code,
                       In pdt0 (pdt :: rest) /\ py_get pdt0 "code" = Ok code
                       /\ c_req c = detail_request code)
         (calls (pick upc rest w'))).
  { intros w'. eapply Forall_impl; [|apply IH].
    intros c (Hop & pdt0 & code & Hin & Hc & Hr).
    split; [exact Hop|]. exists pdt0, code. simpl. auto. }
  rewrite calls_bind. cbn [lift result calls final app].
  destruct (py_get pdt "code") as [code|e] eqn:Hcode; [|constructor].
  destruct (truthy code); cbn [negb]; [|apply IH'].
  rewrite calls_bind. destruct (detail_run code w) as (-> & -> & _).
  constructor.
  { split; [reflexivity|]. exists pdt, code. simpl. auto. }
  destruct (detailed _) as [dj|e]; [|constructor].
  destruct (truthy dj); [|apply IH'].
  rewrite calls_bind. cbn [lift result calls final app].
  destruct (upc_matches dj upc) as [[|]|e]; [constructor | apply IH' | constructor].
Qed.


Lemma pick_prefix (upc : value) (items : list value) (w : world) :
  exists n,
    map c_req (calls (pick upc items w))
    = map detail_request (firstn n (fetchable items)).
Proof.
  revert w. induction items as [|pdt rest IH]; intros w; simpl.
  { exists O. reflexivity. }
  rewrite calls_bind. cbn [lift result calls final app].
  destruct (py_get pdt "code") as [code|e]; [|exists O; reflexivity].
  destruct (truthy code); cbn [negb app]; [|apply IH].
  rewrite calls_bind. destruct (detail_run code w) as (-> & -> & _).
  cbn [app map c_req].
  destruct (detailed _) as [dj|e]; [|exists 1%nat; reflexivity].
  assert (Hrest : forall w',
             exists n, (detail_request code :: map c_req (calls (pick upc rest w')))
                       = map detail_request (firstn n (code :: fetchable rest))).
  { intros w'. destruct (IH w') as (n & Hn). exists (S n). simpl. now rewrite Hn. }
  destruct (truthy dj); [|apply Hrest].
  rewrite calls_bind. cbn [lift result calls final app].
  destruct (upc_matches dj upc) as [[|]|e];
    [exists 1%nat; reflexivity | apply Hrest | exists 1%nat; reflexivity].
Qed.

Lemma by_op_all (op : api_op) (t : list call) :
  Forall (fun c => c_op c = op) t -> by_op op t = t.
Proof.
  induction 1 as [|c t Hc _ IH]; [reflexivity|].
  unfold by_op in *. simpl. rewrite Hc, IH.
  destruct op; reflexivity.
Qed.

(** The detail fetches of an identifier go through the candidates in their
    order. *)
Lemma item_body_details (cid upc : value) (w : world) :
  exists n,
    map c_req (by_op OpDetail (calls (item_body cid upc w)))
    = map detail_request
          (firstn n (fetchable (candidate_list (result (find_products upc w))))).
Proof.
  unfold item_body. rewrite calls_bind, by_op_app.
  rewrite (count_zero_nil OpDetail (calls (find_products upc w)))
    by (eapply Nat.le_trans; [apply at_most_find_products | apply Nat.le_refl]).
  cbn [app].
  destruct (result (find_products upc w)) as [products|e];
    [|exists O; reflexivity].
  set (w1 := final (find_products upc w)).
  destruct (truthy products); cbn [negb]; [|exists O; reflexivity].
  rewrite calls_bind, by_op_app. cbn [lift result calls final app candidate_list].
  destruct (py_iter products) as [items|e]; [|exists O; reflexivity].
  rewrite calls_bind, by_op_app.
  rewrite (@by_op_all OpDetail (calls (pick upc items w1))).
  2: { eapply Forall_impl; [|apply pick_calls]. intros c (Hc & _). exact Hc. }
  destruct (pick_prefix upc items w1) as (n & Hn).
  exists n. rewrite <- Hn.
  destruct (result (pick upc items w1)) as [[picked detail]|e];
    [|now rewrite app_nil_r].
  rewrite (count_zero_nil OpDetail _
             (at_most_after_pick OpDetail cid upc picked detail
                                 (final (pick upc items w1)))).
  now rewrite app_nil_r.
Qed.

(** *** The price read and its retry *)

Lemma cleanup_run (cid upc : value) (a b c : string) (w : world) :
  calls ((append_row upc a b c ;;; cart_remove cid 0)%M w)
  = [Call OpRemove (remove_request cid 0) (fst (http (remove_request cid 0) w))]
  /\ rows ((append_row upc a b c ;;; cart_remove cid 0)%M w)
     = [Row upc a b c (now_str w)].
Proof.
  rewrite calls_bind, rows_bind. cbn [append_row result calls rows final app].
  assert (Hs : rows (cart_remove cid 0 w) = []) by apply silent_remove.
  rewrite remove_run, Hs. split; reflexivity.
Qed.







End RunProps.

(** ** Runs on the reference runtime *)

Section Runs.
Import Binary64.

Example num_reads_the_first_run :
  option_map float_fmt2 (match num (VStr "$ 1,234.50 MXN (2 x 617.25)") with
                         | Ok o => o
                         | Raise _ => None
                         end) = Some "1234.50"
  /\ num (VStr "1.2.3") = Ok None
  /\ num (VStr "sin precio") = Ok None
  /\ num (VBool true) = Ok None
  /\ money (VInt 58) = Ok "58.00"
  /\ money VNone = Ok "".
Proof. repeat split. Qed.

Example clean_digits_of_values :
  clean_digits (VStr "7501-0084 91234") = "7501008491234"
  /\ clean_digits (VInt 7501008491234) = "7501008491234"
  /\ clean_digits (VInt 0) = ""
  /\ clean_digits (VList [VInt 75; VStr "a1"]) = "751".
Proof. repeat split. Qed.

Example run_with_promotion :
  rows (process_upc (PL := Replay.replay) Replay.cart_id (VStr "7501008491234")
                    Replay.on_promotion)
  = [Row (VStr "7501008491234") "120.00" "99.50" "Aspirina 40 tabs"
         "2024-05-01 10:00:00"]
  /\ map c_op (calls (process_upc (PL := Replay.replay) Replay.cart_id
                         (VStr "7501008491234") Replay.on_promotion))
     = [OpSearch; OpDetail; OpAddEntry; OpGetPrices; OpRemove].
Proof. split; reflexivity. Qed.

Example run_of_main :
  map c_op (calls (main (PL := Shop.shop_platform)
                        [VStr "7501008491234"; VStr "123"] (Shop.Shop [] 0)))
  = [OpCartCreate; OpSearch; OpDetail; OpAddEntry; OpGetPrices; OpRemove;
     OpSearch; OpSearch]
  /\ rows (main (PL := Shop.shop_platform)
                [VStr "7501008491234"; VStr "123"] (Shop.Shop [] 0))
     = [Row (VStr "7501008491234") "58.00" "" "Aspirina 500 mg 40 tabletas"
            "2024-05-01 10:00:00";
        Row (VStr "123") "-" "-" "No encontrado" "2024-05-01 10:00:00"].
Proof. split; reflexivity. Qed.

Example step_order_rejects :
  let upc := VStr "7501008491234" in
  let search := Call OpSearch (search_request upc)
                     (Replay.answer (Replay.products_of [Replay.aspirina])) in
  let miss := Call OpDetail (detail_request (VStr "41260001")) Replay.refusal in
  let hit := Call OpDetail (detail_request (VStr "41260001"))
                  (Replay.answer Replay.aspirina_detail) in
  let add := Call OpAddEntry (add_entry_request Replay.cart_id (VStr "41260001") 1)
                  (Replay.answer VNone) in
  let refused := Call OpAddEntry (add_entry_request Replay.cart_id (VStr "41260001") 1)
                      Replay.refusal in
  let read := Call OpGetPrices (prices_request Replay.cart_id) Replay.refusal in
  let remove := Call OpRemove (remove_request Replay.cart_id 0) (Replay.answer VNone) in
  in_step_order upc [search; miss; hit; add; read; read; remove] = true
  /\ in_step_order upc [search; miss; add] = false
  /\ in_step_order upc [search; hit; miss] = false
  /\ in_step_order upc [search; hit; refused; read] = false
  /\ in_step_order upc [search; hit; add; remove] = false
  /\ in_step_order upc [search; hit; add; read; remove; read] = false.
Proof. cbv zeta. repeat split. Qed.

(** C3, counterexample: the identifier 234 occurs in the field value 12345
    of the record, yet the record does not match it; and the record with
    the field value 750-1 matches the identifier 7501, which does not occur
    in it.  The match is not a substring match. *)
Lemma upc_matches_is_not_substring :
  field_value (VDict [("ean", VStr "12345")]) (VStr "12345")
  /\ occurs_in (py_str (VStr "234")) (py_str (VStr "12345")) = true
  /\ upc_matches (VDict [("ean", VStr "12345")]) (VStr "234") = Ok false
  /\ upc_matches (VDict [("ean", VStr "750-1")]) (VStr "7501") = Ok true
  /\ occurs_in (py_str (VStr "7501")) (py_str (VStr "750-1")) = false.
Proof.
  split; [|repeat split].
  apply FV_direct with (k := "ean"); [simpl; auto | reflexivity].
Qed.

(** C9, counterexample: the int [10^400] has no float value, the
    conversion overflows, and [num] returns [None] for it. *)
Lemma num_int_too_large :
  float_of_int (10 ^ 400) = None
  /\ num (VInt (10 ^ 400)) = Ok None.
Proof. split; vm_compute; reflexivity. Qed.

(** C5, witness: with the platform out of reach every identifier raises,
    and each of the three gets its error record. *)
Lemma failure_is_per_item_witness :
  result (item_body (PL := Replay.replay) Replay.cart_id (VInt 2)
            (final (scrape (PL := Replay.replay) Replay.cart_id [VStr "1"]
                           Replay.offline)))
  = Raise Replay.timeout
  /\ (result (scrape (PL := Replay.replay) Replay.cart_id
                [VStr "1"; VInt 2; VNone] Replay.offline) = Ok tt
      /\ rows (scrape (PL := Replay.replay) Replay.cart_id
                 [VStr "1"; VInt 2; VNone] Replay.offline)
         = (rows (scrape (PL := Replay.replay) Replay.cart_id [VStr "1"]
                         Replay.offline)
            ++ error_row (VInt 2) Replay.timeout
                 (now_str (final (item_body (PL := Replay.replay) Replay.cart_id
                    (VInt 2)
                    (final (scrape (PL := Replay.replay) Replay.cart_id
                                   [VStr "1"] Replay.offline)))))
            :: rows (scrape (PL := Replay.replay) Replay.cart_id [VNone]
                       (final (process_upc (PL := Replay.replay) Replay.cart_id
                          (VInt 2)
                          (final (scrape (PL := Replay.replay) Replay.cart_id
                                         [VStr "1"] Replay.offline))))))%list
      /\ map UPC (rows (scrape (PL := Replay.replay) Replay.cart_id [VNone]
                          (final (process_upc (PL := Replay.replay) Replay.cart_id
                             (VInt 2)
                             (final (scrape (PL := Replay.replay) Replay.cart_id
                                            [VStr "1"] Replay.offline))))))
         = [VNone]).
Proof.
  split; [reflexivity|].
  apply (@failure_is_per_item _ _ Replay.replay Replay.cart_id
           [VStr "1"] (VInt 2) [VNone] Replay.timeout Replay.offline).
  reflexivity.
Defined.

(** C6, counterexample: the first search finds nothing and the fallback
    finds a product, whose detail carries another identifier; the
    identifier is recorded as "No encontrado" although the fallback
    returned products. *)
Lemma not_found_after_fallback_hit :
  no_products (result (occ_search (PL := Replay.replay) (VStr "7501008499999")
                                  Replay.fallback_finds_another)) = true
  /\ result (occ_search (PL := Replay.replay)
               (fallback_query (VStr "7501008499999"))
               (final (occ_search (PL := Replay.replay) (VStr "7501008499999")
                                  Replay.fallback_finds_another)))
     = Ok (VList [Replay.aspirina])
  /\ rows (process_upc (PL := Replay.replay) Replay.cart_id
             (VStr "7501008499999") Replay.fallback_finds_another)
     = [Row (VStr "7501008499999") "-" "-" "No encontrado" "2024-05-01 10:00:00"].
Proof. split; [reflexivity | split; reflexivity]. Qed.

(** C6, witness: neither search finds anything. *)
Lemma search_fallback_witness :
  no_products (result (occ_search (PL := Replay.replay) (VStr "7501008491234")
                                  Replay.nothing_found)) = true
  /\ count_op OpSearch
       (calls (process_upc (PL := Replay.replay) Replay.cart_id
                 (VStr "7501008491234") Replay.nothing_found)) = 2%nat.
Proof.
  split; [reflexivity|].
  apply (@search_fallback _ _ Replay.replay Replay.cart_id
           (VStr "7501008491234") Replay.nothing_found).
  reflexivity.
Defined.


(** C8, counterexample: the search returns 25 candidates, none of which
    has a detail page, and 25 detail-fetch calls are issued. *)
Lemma more_than_24_detail_calls :
  candidates (result (find_products (PL := Replay.replay) (VStr "7501008491234")
                                    Replay.crowded)) = 25%nat
  /\ count_op OpDetail
       (calls (process_upc (PL := Replay.replay) Replay.cart_id
                 (VStr "7501008491234") Replay.crowded)) = 25%nat.
Proof. split; vm_compute; reflexivity. Qed.

(** C4 (the code misses the cleanup): the product of the first identifier
    is added to the cart and the read of the cart times out.  The iteration
    ends in the handler without a removal request, the entry is still in the
    cart when the next identifier is processed, and that identifier, another
    product, is recorded with the name and the price of the first. *)
Theorem cart_entry_left_behind :
  let first := process_upc (PL := Shop.shop_platform) Replay.cart_id
                 (VStr "7501008491234") (Shop.Shop [] 1) in
  let second := process_upc (PL := Shop.shop_platform) Replay.cart_id
                  (VStr "7501008499999") (final first) in
  map added (by_op OpAddEntry (calls first)) = [true]
  /\ count_op OpRemove (calls first) = 0%nat
  /\ rows first
     = [Row (VStr "7501008491234") "-" "-"
            "Error general: Timeout 15000ms exceeded." "2024-05-01 10:00:00"]
  /\ Shop.cart (final first) = [Shop.aspirina_40]
  /\ rows second
     = [Row (VStr "7501008499999") "58.00" "" "Aspirina 500 mg 40 tabletas"
            "2024-05-01 10:00:00"]
  /\ rows (process_upc (PL := Shop.shop_platform) Replay.cart_id
             (VStr "7501008499999") (Shop.Shop [] 0))
     = [Row (VStr "7501008499999") "112.00" "" "Tempra 500 mg 20 tabletas"
            "2024-05-01 10:00:00"].
Proof. cbv zeta. repeat split. Qed.

End Runs.

(** * The rest of the script *)

(** ** The output file and the run up to it *)

Section OutputProps.
Context {PF : PyFloat} {PR : PyRepr} {PL : Platform}.

(** X1: [write_rows] only appends.  The records already in the file stay
    where they are, the header is written once, when the file is created,
    and writing two lists one after the other leaves the file that writing
    their concatenation leaves. *)
Theorem write_rows_appends :
  forall (rs1 rs2 : list row) (out_csv : csv_file),
    write_rows rs2 (write_rows rs1 out_csv) = write_rows (rs1 ++ rs2) out_csv
    /\ write_rows rs1 None = Some (headers :: map row_record rs1)
    /\ (forall records,
           write_rows rs1 (Some records) = Some (records ++ map row_record rs1)%list).
Proof.
  intros rs1 rs2 out_csv. split; [|split; [reflexivity|]].
  - unfold write_rows. destruct out_csv as [records|]; cbn [app].
    + now rewrite map_app, app_assoc.
    + now rewrite map_app.
  - intros records. reflexivity.
Qed.

Lemma main_rows (upcs : list value) (w : world) :
  result (main upcs w) = Ok tt -> map UPC (rows (main upcs w)) = upcs.
Proof.
  unfold main. rewrite result_bind, rows_bind.
  assert (Hs : rows (cart_create w) = []) by apply silent_cart_create.
  rewrite Hs. destruct (result (cart_create w)) as [cid|e]; [|discriminate].
  destruct (truthy cid); simpl; [|discriminate].
  intros _. apply scrape_records.
Qed.

(** X2: a run that completes appends to the file one record per
    identifier, in the order of the input, each starting with the text of
    its identifier, after the header when the file is new; a run that
    raises leaves the file as it was. *)
Theorem main_to_csv_records :
  forall (upcs : list value) (w : world) (out_csv : csv_file),
    match fst (main_to_csv upcs w out_csv) with
    | Ok _ =>
      exists records,
        snd (main_to_csv upcs w out_csv)
        = Some (match out_csv with
                | None => [headers]
                | Some before => before
                end ++ records)%list
        /\ map (hd "") records = map csv_text upcs
        /\ Forall (fun r => List.length r = List.length headers) records
    | Raise _ => snd (main_to_csv upcs w out_csv) = out_csv
    end.
Proof.
  intros upcs w out_csv. unfold main_to_csv.
  pose proof (main_rows upcs w) as Hrows.
  destruct (result (main upcs w)) as [[]|e]; simpl; [|reflexivity].
  exists (map row_record (rows (main upcs w))). split; [|split].
  - unfold write_rows. destruct out_csv; reflexivity.
  - rewrite <- (Hrows eq_refl) at 2. rewrite !map_map. reflexivity.
  - apply Forall_forall. intros r Hr. apply in_map_iff in Hr as (x & <- & _).
    reflexivity.
Qed.

End OutputProps.

(** ** The creation of the cart *)

Section CartProps.
Context {PF : PyFloat} {PR : PyRepr} {PL : Platform}.

Lemma returns_ret {A} (P : A -> Prop) (a : A) : P a -> returns P (ret a).
Proof. intros H w a' E. injection E as <-. exact H. Qed.

Lemma returns_lift {A} (P : A -> Prop) (m : exc A) :
  (forall a, m = Ok a -> P a) -> returns P (lift m).
Proof. intros H w a E. apply H. exact E. Qed.

Lemma returns_bind {A B} (P : B -> Prop) (m : M A) (k : A -> M B) :
  (forall a, returns P (k a)) -> returns P (bind m k).
Proof.
  intros Hk w b. rewrite result_bind.
  destruct (result (m w)) as [a|e]; [apply Hk | discriminate].
Qed.

Lemma py_or_none_or_truthy (a b : value) :
  py_or (py_or a b) VNone = VNone \/ truthy (py_or (py_or a b) VNone) = true.
Proof.
  unfold py_or. destruct (truthy a) eqn:Ha; [rewrite Ha; auto|].
  destruct (truthy b) eqn:Hb; [rewrite Hb|]; auto.
Qed.

Lemma cart_create_returns :
  returns (fun a => a = VNone \/ truthy a = true) cart_create.
Proof.
  unfold cart_create. apply returns_bind. intros r.
  destruct (negb (ok r)); [apply returns_ret; auto|].
  destruct (exc_bind (py_json r) _) as [[guid code]|e]; [|apply returns_ret; auto].
  apply returns_bind. intros g1. apply returns_bind. intros g2.
  apply returns_ret, py_or_none_or_truthy.
Qed.

(** X3: [main] goes on to the identifiers exactly when [Cart.create]
    returned an identifier.  What [Cart.create] returns is [None] or truthy,
    so the test [if not cart_id] fails on [None] only; then, and when
    [Cart.create] raises, [main] raises after the requests of [Cart.create],
    without a record. *)
Theorem main_needs_a_cart :
  forall (upcs : list value) (w : world),
    match result (cart_create w) with
    | Ok cart_id =>
      if truthy cart_id
      then result (main upcs w) = Ok tt
           /\ calls (main upcs w)
              = (calls (cart_create w)
                 ++ calls (scrape cart_id upcs (final (cart_create w))))%list
           /\ rows (main upcs w) = rows (scrape cart_id upcs (final (cart_create w)))
      else cart_id = VNone
           /\ result (main upcs w) = Raise no_cart
           /\ calls (main upcs w) = calls (cart_create w)
           /\ rows (main upcs w) = []
    | Raise e =>
      result (main upcs w) = Raise e
      /\ calls (main upcs w) = calls (cart_create w)
      /\ rows (main upcs w) = []
    end.
Proof.
  intros upcs w. unfold main. rewrite result_bind, calls_bind, rows_bind.
  assert (Hs : rows (cart_create w) = []) by apply silent_cart_create.
  rewrite Hs. pose proof (cart_create_returns w) as Hc.
  destruct (result (cart_create w)) as [cid|e].
  - destruct (truthy cid) eqn:Ht; cbn [negb].
    + split; [apply scrape_records|]. split; reflexivity.
    + destruct (Hc cid eq_refl) as [->|Ht']; [|congruence].
      cbn [raise result calls rows app]. rewrite app_nil_r. repeat split.
  - rewrite app_nil_r. repeat split.
Qed.

Lemma result_send {A} (op : api_op) (rq : request) (k : response -> M A) (w : world) :
  result (bind (send op rq) k w)
  = match fst (http rq w) with
    | Ok r => result (k r (snd (http rq w)))
    | Raise e => Raise e
    end.
Proof.
  rewrite result_bind. unfold send. cbn [result final]. reflexivity.
Qed.

Lemma calls_send {A} (op : api_op) (rq : request) (k : response -> M A) (w : world) :
  calls (bind (send op rq) k w)
  = Call op rq (fst (http rq w))
    :: match fst (http rq w) with
       | Ok r => calls (k r (snd (http rq w)))
       | Raise _ => []
       end.
Proof.
  rewrite calls_bind. unfold send. cbn [result final calls app]. reflexivity.
Qed.

Lemma exc_try_returns {A} (m : exc A) (a : A) :
  exists b, exc_try m (fun _ => Ok a) = Ok b.
Proof. destruct m as [b|e]; [exists b | exists a]; reflexivity. Qed.

Lemma list_lookup_run (guid : value) (w : world) :
  (r2 <- send OpCartList list_request ;;
   if ok r2 then
     lift (exc_try
             (arr <- py_json r2 ;;
              match arr with
              | VList (_ :: _) => (a0 <- py_getitem arr 0 ;; guid_or_code a0)
              | _ => Ok guid
              end)%exc
             (fun _ => Ok guid))
   else ret guid)%M w
  = match fst (http list_request w) with
    | Ok r2 =>
      Out (Ok (guid_after_list guid r2)) (snd (http list_request w))
          [Call OpCartList list_request (Ok r2)] []
    | Raise e =>
      Out (Raise e) (snd (http list_request w))
          [Call OpCartList list_request (Raise e)] []
    end.
Proof.
  unfold bind, send, guid_after_list. cbn [result final calls rows].
  destruct (fst (http list_request w)) as [r2|e]; [|reflexivity].
  destruct (ok r2); [|reflexivity].
  unfold lift. destruct (exc_bind (py_json r2) _); reflexivity.
Qed.

Lemma current_lookup_run (guid : value) (w : world) :
  (r3 <- send OpCartCurrent current_request ;;
   if ok r3 then
     lift (exc_try (cur <- py_json r3 ;; guid_or_code cur)%exc
                   (fun _ => Ok guid))
   else ret guid)%M w
  = match fst (http current_request w) with
    | Ok r3 =>
      Out (Ok (guid_after_current guid r3)) (snd (http current_request w))
          [Call OpCartCurrent current_request (Ok r3)] []
    | Raise e =>
      Out (Raise e) (snd (http current_request w))
          [Call OpCartCurrent current_request (Raise e)] []
    end.
Proof.
  unfold bind, send, guid_after_current. cbn [result final calls rows].
  destruct (fst (http current_request w)) as [r3|e]; [|reflexivity].
  destruct (ok r3); [|reflexivity].
  unfold lift. destruct (exc_bind (py_json r3) _); reflexivity.
Qed.

(** X4: [Cart.create] starts with the POST.  When the request raises, so does
    it; when the answer is refused or is not an object it returns [None];
    when the answer has a [guid] it returns it; in all three cases nothing
    else is requested.  An answer without [guid] is followed by the list of
    the carts; when that gives an identifier, it is returned and nothing
    else is requested.  The current cart is requested exactly when the list
    gave no identifier either, and the result is then what it gives, or
    else the [code] of the first answer, or else [None].  A request that
    raises ends [Cart.create] with its exception. *)
Theorem cart_create_lookups :
  forall w : world,
    let t := map (fun c => (c_op c, c_req c)) (calls (cart_create w)) in
    match fst (http create_request w) with
    | Raise e =>
      result (cart_create w) = Raise e
      /\ t = [(OpCartCreate, create_request)]
    | Ok r =>
      match created r with
      | None =>
        result (cart_create w) = Ok VNone
        /\ t = [(OpCartCreate, create_request)]
      | Some (guid, code) =>
        if truthy guid
        then result (cart_create w) = Ok guid
             /\ t = [(OpCartCreate, create_request)]
        else
          let w1 := snd (http create_request w) in
          match fst (http list_request w1) with
          | Raise e =>
            result (cart_create w) = Raise e
            /\ t = [(OpCartCreate, create_request); (OpCartList, list_request)]
          | Ok r2 =>
            let guid1 := guid_after_list guid r2 in
            if truthy guid1
            then result (cart_create w) = Ok guid1
                 /\ t = [(OpCartCreate, create_request); (OpCartList, list_request)]
            else
              let w2 := snd (http list_request w1) in
              match fst (http current_request w2) with
              | Raise e =>
                result (cart_create w) = Raise e
                /\ t = [(OpCartCreate, create_request); (OpCartList, list_request);
                        (OpCartCurrent, current_request)]
              | Ok r3 =>
                result (cart_create w)
                = Ok (py_or (py_or (guid_after_current guid1 r3) code) VNone)
                /\ t = [(OpCartCreate, create_request); (OpCartList, list_request);
                        (OpCartCurrent, current_request)]
              end
          end
      end
    end.
Proof.
  intros w. cbv zeta. unfold cart_create, created.
  fold create_request list_request current_request.
  rewrite result_send, calls_send.
  destruct (fst (http create_request w)) as [r|e]; [|split; reflexivity].
  set (w1 := snd (http create_request w)).
  destruct (ok r); cbn [negb]; [|split; reflexivity].
  destruct (exc_bind (py_json r) _) as [[guid code]|e]; [|split; reflexivity].
  destruct (truthy guid) eqn:Hg; cbn [negb].
  - rewrite !result_bind, !calls_bind. cbn [ret result calls final app].
    rewrite Hg. cbn [negb].
    rewrite !result_bind, ?calls_bind. cbn [ret result calls final app map c_op c_req].
    unfold py_or. rewrite !Hg. split; reflexivity.
  - rewrite calls_bind, result_bind, !list_lookup_run.
    destruct (fst (http list_request w1)) as [r2|e2];
      cbn [result calls final app map c_op c_req]; [|split; reflexivity].
    set (w2 := snd (http list_request w1)).
    set (guid1 := guid_after_list guid r2).
    rewrite calls_bind, result_bind.
    destruct (truthy guid1) eqn:Hg1; cbn [negb].
    + cbn [ret result calls final app map c_op c_req].
      unfold py_or. rewrite !Hg1. split; reflexivity.
    + rewrite !current_lookup_run.
      destruct (fst (http current_request w2)) as [r3|e3];
        cbn [ret result calls final app map c_op c_req]; split; reflexivity.
Qed.

Lemma search_result_returns (r : response) : exists v, search_result r = Ok v.
Proof.
  unfold search_result. destruct (negb (ok r)); [eexists; reflexivity|].
  apply exc_try_returns.
Qed.

Lemma detail_result_returns (r : response) : exists v, detail_result r = Ok v.
Proof.
  unfold detail_result. destruct (negb (ok r)); [eexists; reflexivity|].
  apply exc_try_returns.
Qed.

Lemma prices_result_returns (i : Z) (r : response) :
  exists g, prices_result i r = Ok g.
Proof.
  unfold prices_result. destruct (negb (ok r)); [eexists; reflexivity|].
  apply exc_try_returns.
Qed.

Lemma result_send_lift {A} (op : api_op) (rq : request) (f : response -> exc A)
      (w : world) (e : exn) :
  (forall r, exists a, f r = Ok a) ->
  result (bind (send op rq) (fun r => lift (f r)) w) = Raise e
  <-> fst (http rq w) = Raise e.
Proof.
  intros Hf. rewrite result_send.
  destruct (fst (http rq w)) as [r|e'].
  - cbn [lift result]. destruct (Hf r) as (a & ->). split; discriminate.
  - split; intros H; injection H as <-; reflexivity.
Qed.

(** X5: an exception leaves [OCC.search], [OCC.detail], [Cart.add_entry]
    and [Cart.get_prices] only when their request raised, and it is that
    exception; a refused answer or a body that cannot be read never raises.
    [Cart.remove] never raises. *)
Theorem clients_raise_with_the_request :
  forall (cart_id code q : value) (w : world) (e : exn),
    (result (occ_search q w) = Raise e <-> fst (http (search_request q) w) = Raise e)
    /\ (result (occ_detail code w) = Raise e
        <-> fst (http (detail_request code) w) = Raise e)
    /\ (result (cart_add_entry cart_id code w) = Raise e
        <-> fst (http (add_entry_request cart_id code 1) w) = Raise e)
    /\ (result (cart_get_prices cart_id 0 w) = Raise e
        <-> fst (http (prices_request cart_id) w) = Raise e)
    /\ result (cart_remove cart_id 0 w) = Ok tt.
Proof.
  intros cart_id code q w e.
  split; [apply result_send_lift, search_result_returns|].
  split; [apply result_send_lift, detail_result_returns|].
  split; [|split; [apply result_send_lift, prices_result_returns
                  | apply remove_returns]].
  apply (result_send_lift OpAddEntry (add_entry_request cart_id code 1)
           (fun r => Ok (ok r))).
  intros r. eexists. reflexivity.
Qed.

End CartProps.

(** ** The cart during an item *)

Section PurchaseProps.
Context {PF : PyFloat} {PR : PyRepr} {PL : Platform}.

Lemma read_raises (c : call) (e : exn) : read c = Raise e <-> c_out c = Raise e.
Proof.
  unfold read. destruct (c_out c) as [r|e']; simpl.
  - destruct (prices_result_returns 0 r) as (g & ->). split; discriminate.
  - split; intros H; injection H as <-; reflexivity.
Qed.

Lemma money_text (o : option float) : money (of_opt_float o) = Ok (price_text o).
Proof. unfold money. rewrite num_value. destruct o; reflexivity. Qed.

(** lines 391-416: the record and the cleanup *)
Lemma record_and_cleanup (cid upc : value) (name : string) (got : option prices)
      (w : world) :
  let m := match got with
           | None => (append_row upc "-" "-" name ;;; cart_remove cid 0)%M
           | Some (base, total, name2) =>
             (sin <- lift (money (of_opt_float base)) ;;
              con <- lift (money (of_opt_float (promo_of base total))) ;;
              append_row upc sin con (if (name2 =? "")%string then name else name2) ;;;
              cart_remove cid 0)%M
           end in
  result (m w) = Ok tt
  /\ rows (m w) = [price_record upc name got (now_str w)]
  /\ calls (m w)
     = [Call OpRemove (remove_request cid 0) (fst (http (remove_request cid 0) w))].
Proof.
  destruct got as [[[base total] name2]|]; cbv zeta.
  - rewrite result_bind, rows_bind, calls_bind, !money_text.
    cbn [lift result calls rows final app].
    rewrite result_bind, rows_bind, calls_bind.
    cbn [lift result calls rows final app].
    rewrite result_bind.
    destruct (cleanup_run cid upc (price_text base) (price_text (promo_of base total))
                (if (name2 =? "")%string then name else name2) w) as (-> & ->).
    cbn [append_row result final]. rewrite remove_returns. repeat split.
  - rewrite result_bind.
    destruct (cleanup_run cid upc "-" "-" name w) as (-> & ->).
    cbn [append_row result final]. rewrite remove_returns. repeat split.
Qed.

Lemma read_price_run (cid upc : value) (name : string) (w : world) :
  exists l c,
    by_op OpGetPrices (calls (read_price cid upc name w)) = (l ++ [c])%list
    /\ Forall (fun c' => read c' = Ok None) l
    /\ match read c with
       | Raise e =>
         result (read_price cid upc name w) = Raise e
         /\ rows (read_price cid upc name w) = []
         /\ by_op OpRemove (calls (read_price cid upc name w)) = []
       | Ok got =>
         result (read_price cid upc name w) = Ok tt
         /\ (exists fecha,
                rows (read_price cid upc name w) = [price_record upc name got fecha])
         /\ exists t out,
             calls (read_price cid upc name w)
             = (t ++ [Call OpRemove (remove_request cid 0) out])%list
             /\ by_op OpRemove t = []
       end.
Proof.
  unfold read_price. cbv zeta.
  rewrite calls_bind, rows_bind, result_bind.
  cbn [do_sleep result calls rows final app].
  set (w1 := sleep (2 # 10) w).
  rewrite calls_bind, rows_bind, result_bind.
  destruct (get_prices_run cid w1) as (Hc1 & Hr1). rewrite Hc1, Hr1.
  assert (Hs1 : rows (cart_get_prices cid 0 w1) = []) by apply silent_get_prices.
  rewrite Hs1.
  set (g1 := Call OpGetPrices (prices_request cid) (fst (http (prices_request cid) w1))) in *.
  set (w2 := final (cart_get_prices cid 0 w1)).
  destruct (read g1) as [[p|]|e] eqn:Hg1.
  - (* the first read returned prices *)
    exists [], g1. rewrite Hg1.
    rewrite calls_bind, rows_bind, result_bind. cbn [ret result calls rows final app].
    destruct (record_and_cleanup cid upc name (Some p) w2) as (Hr & Hrow & Hc).
    cbv zeta in Hr, Hrow, Hc. destruct p as [[base total] name2].
    rewrite Hr, Hrow, Hc. cbn [by_op filter c_op op_eqb app].
    split; [reflexivity|]. split; [constructor|]. split; [reflexivity|].
    split; [eexists; reflexivity|].
    exists [g1], (fst (http (remove_request cid 0) w2)). split; reflexivity.
  - (* the first read returned nothing: one retry *)
    rewrite calls_bind, rows_bind, result_bind.
    rewrite calls_bind, rows_bind, result_bind.
    cbn [do_sleep result calls rows final app].
    set (w3 := sleep (4 # 10) w2).
    destruct (get_prices_run cid w3) as (Hc2 & Hr2). rewrite Hc2, Hr2.
    assert (Hs : rows (cart_get_prices cid 0 w3) = []) by apply silent_get_prices.
    rewrite Hs, !final_bind, ?result_bind. cbn [do_sleep result final]. fold w3.
    rewrite ?Hr2.
    set (g2 := Call OpGetPrices (prices_request cid) (fst (http (prices_request cid) w3))) in *.
    set (w4 := final (cart_get_prices cid 0 w3)).
    exists [g1], g2.
    destruct (read g2) as [got|e] eqn:Hg2.
    + destruct (record_and_cleanup cid upc name got w4) as (Hr & Hrow & Hc).
      cbv zeta in Hr, Hrow, Hc.
      rewrite Hr, Hrow, Hc. cbn [by_op filter c_op op_eqb app].
      split; [reflexivity|]. split; [repeat constructor; exact Hg1|].
      split; [reflexivity|]. split; [eexists; reflexivity|].
      exists [g1; g2], (fst (http (remove_request cid 0) w4)). split; reflexivity.
    + cbn [by_op filter c_op op_eqb app].
      split; [reflexivity|]. split; [repeat constructor; exact Hg1|].
      repeat split.
  - (* the first read raised *)
    exists [], g1. rewrite Hg1. cbn [by_op filter c_op op_eqb app].
    split; [reflexivity|]. split; [constructor|]. repeat split.
Qed.

Lemma quiet_find (op : api_op) (upc : value) (w : world) :
  op_eqb OpSearch op = false -> by_op op (calls (find_products upc w)) = [].
Proof.
  intros H. apply count_zero_nil.
  pose proof (at_most_find_products op upc w) as Hn.
  unfold uses in Hn. rewrite H in Hn. exact Hn.
Qed.



(** *** The steps of an item *)

Lemma bind_lift_ok {A B} (a : A) (k : A -> M B) (w : world) :
  bind (lift (Ok a)) k w = k a w.
Proof. unfold bind, lift. cbn. destruct (k a w). reflexivity. Qed.

Lemma bind_lift_raise {A B} (e : exn) (k : A -> M B) (w : world) :
  bind (lift (Raise e)) k w = Out (Raise e) w [] [].
Proof. reflexivity. Qed.

Lemma removelast_cons_all {A} (P : A -> Prop) (x : A) (l : list A) :
  P x -> Forall P (removelast l) -> Forall P (removelast (x :: l)).
Proof.
  intros Hx Hl. destruct l as [|y l]; [constructor|].
  change (Forall P (x :: removelast (y :: l))). constructor; assumption.
Qed.

(** The loop [for pdt in products]: the candidates with a code are fetched
    in order, every fetch but the last gave no match, and the loop ends
    with the first match, at the end of the candidates, or with an
    exception. *)
Lemma pick_run (upc : value) (items : list value) (w : world) :
  map c_req (calls (pick upc items w))
  = map detail_request
        (firstn (List.length (calls (pick upc items w))) (fetchable items))
  /\ Forall (fun d => verdict upc d = Ok false) (removelast (calls (pick upc items w)))
  /\ match result (pick upc items w) with
     | Ok (picked, detail) =>
       if truthy picked
       then exists before d code,
           calls (pick upc items w) = (before ++ [d])%list
           /\ In picked items
           /\ py_get picked "code" = Ok code
           /\ c_req d = detail_request code
           /\ detailed d = Ok detail
           /\ verdict upc d = Ok true
           /\ upc_matches detail upc = Ok true
       else Forall (fun d => verdict upc d = Ok false) (calls (pick upc items w))
            /\ List.length (calls (pick upc items w)) = List.length (fetchable items)
     | Raise _ => True
     end.
Proof.
  revert w. induction items as [|pdt rest IH]; intros w.
  { cbn. repeat split; constructor. }
  cbn [pick fetchable flat_map]. fold (fetchable rest).
  destruct (py_get pdt "code") as [code|e] eqn:Hcode;
    [|rewrite bind_lift_raise; cbn; repeat split; constructor].
  rewrite bind_lift_ok.
  assert (Hrest : forall w',
    map c_req (calls (pick upc rest w'))
    = map detail_request
          (firstn (List.length (calls (pick upc rest w'))) (fetchable rest))
    /\ Forall (fun d => verdict upc d = Ok false) (removelast (calls (pick upc rest w')))
    /\ match result (pick upc rest w') with
       | Ok (picked, detail) =>
         if truthy picked
         then exists before d code,
             calls (pick upc rest w') = (before ++ [d])%list
             /\ In picked (pdt :: rest)
             /\ py_get picked "code" = Ok code
             /\ c_req d = detail_request code
             /\ detailed d = Ok detail
             /\ verdict upc d = Ok true
             /\ upc_matches detail upc = Ok true
         else Forall (fun d => verdict upc d = Ok false) (calls (pick upc rest w'))
              /\ List.length (calls (pick upc rest w')) = List.length (fetchable rest)
       | Raise _ => True
       end).
  { intros w'. destruct (IH w') as (H1 & H2 & H3). split; [exact H1|]. split; [exact H2|].
    destruct (result (pick upc rest w')) as [[picked detail]|e]; [|exact I].
    destruct (truthy picked); [|exact H3].
    destruct H3 as (before & d & code' & Hc & Hin & Hrest).
    exists before, d, code'. split; [exact Hc|]. split; [right; exact Hin | exact Hrest]. }
  destruct (truthy code) eqn:Ht; cbn [negb app]; [|apply Hrest].
  rewrite calls_bind, result_bind.
  destruct (detail_run code w) as (Hc1 & Hr1 & Hf1). cbv zeta in Hc1, Hr1.
  rewrite Hc1, Hr1.
  set (c := Call OpDetail (detail_request code) (fst (http (detail_request code) w))) in *.
  set (w1 := final (occ_detail code w)).
  assert (Hmiss : verdict upc c = Ok false ->
    map c_req ([c] ++ calls (pick upc rest w1))
    = map detail_request
          (firstn (List.length ([c] ++ calls (pick upc rest w1)))
                  (code :: fetchable rest))
    /\ Forall (fun d => verdict upc d = Ok false)
              (removelast ([c] ++ calls (pick upc rest w1)))
    /\ match result (pick upc rest w1) with
       | Ok (picked, detail) =>
         if truthy picked
         then exists before d code0,
             ([c] ++ calls (pick upc rest w1))%list = (before ++ [d])%list
             /\ In picked (pdt :: rest)
             /\ py_get picked "code" = Ok code0
             /\ c_req d = detail_request code0
             /\ detailed d = Ok detail
             /\ verdict upc d = Ok true
             /\ upc_matches detail upc = Ok true
         else Forall (fun d => verdict upc d = Ok false)
                     ([c] ++ calls (pick upc rest w1))
              /\ List.length ([c] ++ calls (pick upc rest w1))
                 = List.length (code :: fetchable rest)
       | Raise _ => True
       end).
  { intros Hv. destruct (Hrest w1) as (H1 & H2 & H3).
    split; [cbn; rewrite <- H1; reflexivity|].
    split; [apply removelast_cons_all; assumption|].
    destruct (result (pick upc rest w1)) as [[picked detail]|e]; [|exact I].
    destruct (truthy picked).
    - destruct H3 as (before & d & code' & Hc & Hrest').
      exists (c :: before), d, code'. split; [cbn; rewrite Hc; reflexivity | exact Hrest'].
    - destruct H3 as (Hall & Hlen). split; [constructor; assumption|].
      cbn. rewrite Hlen. reflexivity. }
  unfold verdict in Hmiss at 1.
  destruct (detailed c) as [dj|e] eqn:Hd;
    [|cbn; repeat split; constructor].
  cbn [exc_bind] in Hmiss.
  destruct (truthy dj) eqn:Htd; [|apply Hmiss; reflexivity].
  destruct (upc_matches dj upc) as [[|]|e] eqn:Hm.
  - rewrite bind_lift_ok. cbn [ret result calls app].
    rewrite (truthy_with_code _ Hcode Ht).
    split; [reflexivity|]. split; [constructor|].
    exists [], c, code. repeat split; try assumption; try reflexivity.
    + left. reflexivity.
    + unfold verdict. rewrite Hd. cbn. rewrite Htd. exact Hm.
  - rewrite bind_lift_ok. apply Hmiss. reflexivity.
  - rewrite bind_lift_raise. cbn. repeat split; constructor.
Qed.

Lemma no_candidates (products : value) :
  truthy products = false -> candidate_list (Ok products) = [].
Proof.
  unfold candidate_list.
  destruct products as [| | | |s|l|d]; try reflexivity.
  - destruct s; [reflexivity | discriminate].
  - destruct l; [reflexivity | discriminate].
  - destruct d; [reflexivity | discriminate].
Qed.

(** The body of the [try], step by step: the searches, the fetches of the
    loop over the candidates, and what follows a match. *)
Lemma item_body_steps (cid upc : value) (w : world) :
  exists D T,
    calls (item_body cid upc w) = (calls (find_products upc w) ++ D ++ T)%list
    /\ Forall (fun c => c_op c = OpDetail) D
    /\ map c_req D
       = map detail_request
             (firstn (List.length D)
                     (fetchable (candidate_list (result (find_products upc w)))))
    /\ Forall (fun d => verdict upc d = Ok false) (removelast D)
    /\ by_op OpSearch T = [] /\ by_op OpDetail T = []
    /\ ((T = []
         /\ match result (item_body cid upc w) with
            | Ok _ =>
              Forall (fun d => verdict upc d = Ok false) D
              /\ List.length D
                 = List.length (fetchable (candidate_list (result (find_products upc w))))
              /\ exists fecha, rows (item_body cid upc w) = [not_found_row upc fecha]
            | Raise _ => rows (item_body cid upc w) = []
            end)
        \/ exists products items picked detail code name before d w2,
            result (find_products upc w) = Ok products
            /\ py_iter products = Ok items
            /\ In picked items
            /\ D = (before ++ [d])%list
            /\ c_req d = detail_request code
            /\ detailed d = Ok detail
            /\ verdict upc d = Ok true
            /\ upc_matches detail upc = Ok true
            /\ py_get picked "code" = Ok code
            /\ resolved_name detail picked = Ok name
            /\ let rq := add_entry_request cid code 1 in
               let a := Call OpAddEntry rq (fst (http rq w2)) in
               let w3 := snd (http rq w2) in
               match fst (http rq w2) with
               | Raise e =>
                 T = [a]
                 /\ result (item_body cid upc w) = Raise e
                 /\ rows (item_body cid upc w) = []
               | Ok r =>
                 if ok r
                 then T = a :: calls (read_price cid upc name w3)
                      /\ result (item_body cid upc w) = result (read_price cid upc name w3)
                      /\ rows (item_body cid upc w) = rows (read_price cid upc name w3)
                 else T = [a]
                      /\ result (item_body cid upc w) = Ok tt
                      /\ rows (item_body cid upc w) = [Row upc "-" "-" name (now_str w3)]
               end).
Proof.
  unfold item_body.
  rewrite calls_bind, rows_bind, result_bind.
  assert (Hsf : rows (find_products upc w) = []) by apply silent_find_products.
  rewrite Hsf. cbn [app].
  destruct (result (find_products upc w)) as [products|e] eqn:Hprod.
  2:{ exists [], []. split; [cbn; rewrite !app_nil_r; reflexivity|].
      split; [constructor|]. split; [reflexivity|]. split; [constructor|].
      split; [reflexivity|]. split; [reflexivity|].
      left. split; reflexivity. }
  set (w1 := final (find_products upc w)).
  destruct (truthy products) eqn:Htp; cbn [negb].
  2:{ exists [], []. rewrite (no_candidates _ Htp).
      split; [reflexivity|].
      split; [constructor|]. split; [reflexivity|]. split; [constructor|].
      split; [reflexivity|]. split; [reflexivity|].
      left. split; [reflexivity|]. cbn.
      split; [constructor|]. split; [reflexivity|]. eexists. reflexivity. }
  cbn [candidate_list].
  destruct (py_iter products) as [items|e] eqn:Hitems.
  2:{ rewrite bind_lift_raise. exists [], [].
      split; [cbn; rewrite !app_nil_r; reflexivity|].
      split; [constructor|]. split; [reflexivity|]. split; [constructor|].
      split; [reflexivity|]. split; [reflexivity|].
      left. split; reflexivity. }
  rewrite bind_lift_ok.
  rewrite calls_bind, rows_bind, result_bind.
  assert (Hsp : rows (pick upc items w1) = []) by apply silent_pick.
  rewrite Hsp. cbn [app].
  destruct (pick_run upc items w1) as (Hreq & Hmiss & Hend).
  pose proof (pick_calls upc items w1) as Hops.
  assert (Hdet : Forall (fun c => c_op c = OpDetail) (calls (pick upc items w1))).
  { eapply Forall_impl; [|exact Hops]. intros c H. apply H. }
  destruct (result (pick upc items w1)) as [[picked detail]|e].
  2:{ exists (calls (pick upc items w1)), [].
      split; [rewrite !app_nil_r; reflexivity|].
      split; [exact Hdet|]. split; [exact Hreq|]. split; [exact Hmiss|].
      split; [reflexivity|]. split; [reflexivity|].
      left. split; reflexivity. }
  set (w2 := final (pick upc items w1)).
  destruct (truthy picked) eqn:Hp; cbn [negb].
  2:{ exists (calls (pick upc items w1)), [].
      split; [rewrite !app_nil_r; reflexivity|].
      split; [exact Hdet|]. split; [exact Hreq|]. split; [exact Hmiss|].
      split; [reflexivity|]. split; [reflexivity|].
      left. split; [reflexivity|]. cbn.
      destruct Hend as (Hall & Hlen).
      split; [exact Hall|]. split; [exact Hlen|]. eexists. reflexivity. }
  destruct Hend as (before & d & code & HD & Hin & Hcode & Hrq & Hdj & Hv & Hm).
  rewrite Hcode, bind_lift_ok.
  destruct (resolved_name detail picked) as [name|e] eqn:Hname.
  2:{ rewrite bind_lift_raise. exists (calls (pick upc items w1)), [].
      split; [cbn; rewrite !app_nil_r; reflexivity|].
      split; [exact Hdet|]. split; [exact Hreq|]. split; [exact Hmiss|].
      split; [reflexivity|]. split; [reflexivity|].
      left. split; reflexivity. }
  rewrite bind_lift_ok.
  rewrite calls_bind, rows_bind, result_bind.
  assert (Ha : calls (cart_add_entry cid code w2)
               = [Call OpAddEntry (add_entry_request cid code 1)
                       (fst (http (add_entry_request cid code 1) w2))]
               /\ rows (cart_add_entry cid code w2) = []
               /\ final (cart_add_entry cid code w2)
                  = snd (http (add_entry_request cid code 1) w2)
               /\ result (cart_add_entry cid code w2)
                  = match fst (http (add_entry_request cid code 1) w2) with
                    | Ok r => Ok (ok r)
                    | Raise e => Raise e
                    end).
  { unfold cart_add_entry.
    rewrite calls_bind, rows_bind, final_bind, result_bind.
    unfold send. cbn [result calls rows final].
    destruct (fst (http (add_entry_request cid code 1) w2)); repeat split. }
  destruct Ha as (-> & -> & -> & ->).
  exists (calls (pick upc items w1)),
         (match fst (http (add_entry_request cid code 1) w2) with
          | Ok r =>
            if ok r
            then Call OpAddEntry (add_entry_request cid code 1)
                      (fst (http (add_entry_request cid code 1) w2))
                 :: calls (read_price cid upc name
                                      (snd (http (add_entry_request cid code 1) w2)))
            else [Call OpAddEntry (add_entry_request cid code 1)
                       (fst (http (add_entry_request cid code 1) w2))]
          | Raise _ => [Call OpAddEntry (add_entry_request cid code 1)
                             (fst (http (add_entry_request cid code 1) w2))]
          end).
  split.
  { destruct (fst (http (add_entry_request cid code 1) w2)) as [r|e];
      [destruct (ok r)|]; cbn [negb append_row result calls rows final app];
      rewrite ?app_nil_r; reflexivity. }
  split; [exact Hdet|]. split; [exact Hreq|]. split; [exact Hmiss|].
  assert (Hq : forall op, op_eqb OpAddEntry op = false ->
                          op_eqb OpGetPrices op = false ->
                          op_eqb OpRemove op = false ->
                          by_op op
                            (calls (read_price cid upc name
                                      (snd (http (add_entry_request cid code 1) w2)))) = []).
  { intros op H1 H2 H3. apply count_zero_nil.
    pose proof (at_most_read_price op cid upc name
                  (snd (http (add_entry_request cid code 1) w2))) as Hn.
    unfold uses in Hn. rewrite H2, H3 in Hn. exact Hn. }
  split.
  { destruct (fst (http (add_entry_request cid code 1) w2)) as [r|e];
      [destruct (ok r)|]; cbn [by_op filter c_op op_eqb]; [|reflexivity..].
    apply (Hq OpSearch); reflexivity. }
  split.
  { destruct (fst (http (add_entry_request cid code 1) w2)) as [r|e];
      [destruct (ok r)|]; cbn [by_op filter c_op op_eqb]; [|reflexivity..].
    apply (Hq OpDetail); reflexivity. }
  right. exists products, items, picked, detail, code, name, before, d, w2.
  do 10 (split; [assumption || reflexivity|]).
  cbv zeta.
  destruct (fst (http (add_entry_request cid code 1) w2)) as [r|e].
  - destruct (ok r); cbn [negb append_row result calls rows final app];
      repeat split.
  - repeat split.
Qed.

Lemma by_op_none (op op' : api_op) (t : list call) :
  Forall (fun c => c_op c = op') t -> op_eqb op' op = false -> by_op op t = [].
Proof.
  intros H Hop. induction H as [|c t Hc _ IH]; [reflexivity|].
  unfold by_op in *. cbn [filter]. rewrite Hc, Hop. exact IH.
Qed.

Lemma by_op_steps (op : api_op) (upc : value) (w : world) (D T : list call) :
  Forall (fun c => c_op c = OpDetail) D ->
  by_op op (calls (find_products upc w) ++ D ++ T)
  = match op with
    | OpSearch => (calls (find_products upc w) ++ by_op OpSearch T)%list
    | OpDetail => (D ++ by_op OpDetail T)%list
    | _ => by_op op T
    end.
Proof.
  intros HD. rewrite !by_op_app.
  assert (HDn : forall op', op_eqb OpDetail op' = false -> by_op op' D = []).
  { intros op' H. eapply by_op_none; eassumption. }
  destruct op;
    rewrite ?HDn by reflexivity; rewrite ?quiet_find by reflexivity;
    rewrite ?(by_op_all HD); try reflexivity.
  cbn [app]. rewrite by_op_all; [reflexivity|].
  unfold find_products. pose proof (search_run upc w) as (Hc1 & Hr1 & Hf1).
  cbv zeta in Hc1. rewrite calls_bind, Hc1.
  apply Forall_app. split; [repeat constructor|].
  destruct (result (occ_search upc w)) as [found|e]; [|constructor].
  destruct (truthy found); [constructor|].
  pose proof (search_run (fallback_query upc) (final (occ_search upc w))) as (Hc2 & _).
  cbv zeta in Hc2. rewrite Hc2. repeat constructor.
Qed.


End PurchaseProps.

Section ItemProps.
Context {PF : PyFloat} {PR : PyRepr} {PL : Platform}.

Lemma rows_process_upc (cid upc : value) (w : world) :
  rows (process_upc cid upc w)
  = match result (item_body cid upc w) with
    | Ok _ => rows (item_body cid upc w)
    | Raise e => [error_row upc e (now_str (final (item_body cid upc w)))]
    end.
Proof.
  unfold process_upc. rewrite rows_try.
  pose proof (records_one_item_body cid upc w) as H.
  destruct (result (item_body cid upc w)) as [[]|e].
  - apply app_nil_r.
  - rewrite H. reflexivity.
Qed.

Lemma quiet_read_price (cid upc : value) (name : string) (w : world) :
  by_op OpAddEntry (calls (read_price cid upc name w)) = [].
Proof.
  apply count_zero_nil.
  exact (at_most_read_price OpAddEntry cid upc name w).
Qed.





(** X7: when the last read of the cart is answered, the item is recorded
    with what the read returned: the base price, the total as promotional
    price when it is below the base price, and the name of the cart entry,
    or, when the entry has none, the name resolved from the picked product,
    a candidate of the search result, and from its detail, the answer to
    the last fetch of the item, which matched; "-" in both price columns
    under that resolved name when the read returned nothing. *)
Theorem price_is_recorded :
  forall (cid upc : value) (w : world) (l : list call) (c : call)
         (got : option prices),
    by_op OpGetPrices (calls (process_upc cid upc w)) = (l ++ [c])%list ->
    read c = Ok got ->
    exists products items picked code before d detail name fecha,
      result (find_products upc w) = Ok products
      /\ py_iter products = Ok items
      /\ In picked items
      /\ py_get picked "code" = Ok code
      /\ by_op OpDetail (calls (process_upc cid upc w)) = (before ++ [d])%list
      /\ c_req d = detail_request code
      /\ detailed d = Ok detail
      /\ upc_matches detail upc = Ok true
      /\ resolved_name detail picked = Ok name
      /\ rows (process_upc cid upc w) = [price_record upc name got fecha].
Proof.
  intros cid upc w l c got. rewrite calls_process_upc, rows_process_upc.
  destruct (item_body_steps cid upc w)
    as (D & T & -> & HD & _ & _ & _ & HqD & Hcase).
  rewrite !(by_op_steps _ upc w T HD), HqD, app_nil_r.
  destruct Hcase
    as [(-> & _)
       | (products & items & picked & detail & code & name & before & d & w2
          & Hprod & Hitems & Hin & HDd & Hrq & Hdj & _ & Hm & Hcode & Hname & H)].
  { intros E. apply app_cons_not_nil in E. contradiction. }
  cbv zeta in H.
  set (rq := add_entry_request cid code 1) in *.
  destruct (fst (http rq w2)) as [r|e] eqn:Hout.
  - destruct (ok r) eqn:Hok.
    + destruct H as (-> & -> & ->).
      set (w3 := snd (http rq w2)).
      cbn [by_op filter c_op op_eqb].
      fold (by_op OpGetPrices (calls (read_price cid upc name w3))).
      destruct (read_price_run cid upc name w3) as (l' & c' & -> & _ & Hc).
      intros E Hread. apply app_inj_tail in E as (_ & ->).
      rewrite Hread in Hc. destruct Hc as (-> & (fecha & ->) & _).
      exists products, items, picked, code, before, d, detail, name, fecha.
      repeat split; assumption.
    + destruct H as (-> & _). cbn. intros E.
      apply app_cons_not_nil in E. contradiction.
  - destruct H as (-> & _). cbn. intros E.
    apply app_cons_not_nil in E. contradiction.
Qed.

(** X8: when the platform refuses the add, the item is recorded with "-" in
    both price columns under the name resolved from the picked product, a
    candidate of the search result, and from its detail, the answer to the
    last fetch of the item, which matched; the add was for that product and
    is the last request of the item: the cart is neither read nor
    cleaned. *)
Theorem refused_add_is_recorded :
  forall (cid upc : value) (w : world) (a : call),
    In a (by_op OpAddEntry (calls (process_upc cid upc w))) ->
    refused a = true ->
    exists products items picked code before d detail name fecha t0,
      result (find_products upc w) = Ok products
      /\ py_iter products = Ok items
      /\ In picked items
      /\ py_get picked "code" = Ok code
      /\ by_op OpDetail (calls (process_upc cid upc w)) = (before ++ [d])%list
      /\ c_req d = detail_request code
      /\ detailed d = Ok detail
      /\ upc_matches detail upc = Ok true
      /\ resolved_name detail picked = Ok name
      /\ c_req a = add_entry_request cid code 1
      /\ rows (process_upc cid upc w) = [Row upc "-" "-" name fecha]
      /\ calls (process_upc cid upc w) = (t0 ++ [a])%list.
Proof.
  intros cid upc w a. rewrite calls_process_upc, rows_process_upc.
  destruct (item_body_steps cid upc w)
    as (D & T & Ht & HD & _ & _ & _ & HqD & Hcase).
  rewrite Ht, !(by_op_steps _ upc w T HD), HqD, app_nil_r.
  destruct Hcase
    as [(-> & _)
       | (products & items & picked & detail & code & name & before & d & w2
          & Hprod & Hitems & Hin & HDd & Hrq & Hdj & _ & Hm & Hcode & Hname & H)].
  { intros []. }
  cbv zeta in H.
  set (rq := add_entry_request cid code 1) in *.
  destruct (fst (http rq w2)) as [r|e] eqn:Hout.
  - destruct (ok r) eqn:Hok.
    + destruct H as (-> & _).
      set (w3 := snd (http rq w2)).
      cbn [by_op filter c_op op_eqb].
      fold (by_op OpAddEntry (calls (read_price cid upc name w3))).
      rewrite quiet_read_price.
      intros [<-|[]]. unfold refused. cbn [c_out]. rewrite Hok. discriminate.
    + destruct H as (-> & -> & ->).
      cbn [by_op filter c_op op_eqb].
      intros [<-|[]] _.
      exists products, items, picked, code, before, d, detail, name,
             (now_str (snd (http rq w2))), (calls (find_products upc w) ++ D)%list.
      repeat split; try assumption. now rewrite <- app_assoc.
  - destruct H as (-> & _).
    cbn [by_op filter c_op op_eqb].
    intros [<-|[]]. unfold refused. cbn [c_out]. discriminate.
Qed.



End ItemProps.

(** ** Where the requests go *)

Section RequestProps.
Context {PF : PyFloat} {PR : PyRepr} {PL : Platform}.

Lemma all_calls_ret (P : call -> Prop) {A} (a : A) : all_calls P (ret a).
Proof. intros w. constructor. Qed.

Lemma all_calls_raise (P : call -> Prop) {A} (e : exn) : all_calls P (@raise _ _ A e).
Proof. intros w. constructor. Qed.

Lemma all_calls_lift (P : call -> Prop) {A} (m : exc A) : all_calls P (lift m).
Proof. intros w. constructor. Qed.

Lemma all_calls_sleep (P : call -> Prop) (d : Q) : all_calls P (do_sleep d).
Proof. intros w. constructor. Qed.

Lemma all_calls_append (P : call -> Prop) (upc : value) (a b c : string) :
  all_calls P (append_row upc a b c).
Proof. intros w. constructor. Qed.

Lemma all_calls_send (P : call -> Prop) (op : api_op) (rq : request) :
  (forall out, P (Call op rq out)) -> all_calls P (send op rq).
Proof. intros H w. repeat constructor. apply H. Qed.

Lemma all_calls_bind (P : call -> Prop) {A B} (m : M A) (k : A -> M B) :
  all_calls P m -> (forall a, all_calls P (k a)) -> all_calls P (bind m k).
Proof.
  intros Hm Hk w. rewrite calls_bind. apply Forall_app. split; [apply Hm|].
  destruct (result (m w)); [apply Hk | constructor].
Qed.

Lemma all_calls_try (P : call -> Prop) {A} (m : M A) (h : exn -> M A) :
  all_calls P m -> (forall e, all_calls P (h e)) -> all_calls P (try_catch m h).
Proof.
  intros Hm Hh w. rewrite calls_try. apply Forall_app. split; [apply Hm|].
  destruct (result (m w)); [constructor | apply Hh].
Qed.

Create HintDb requests.
#[local] Hint Resolve all_calls_ret all_calls_raise all_calls_lift all_calls_sleep
  all_calls_append : requests.

Ltac requests :=
  repeat first
    [ apply all_calls_bind; [|intros ?]
    | apply all_calls_try; [|intros ?]
    | solve [auto with requests]
    | match goal with
      | |- all_calls _ (if ?b then _ else _) => destruct b
      | |- all_calls _ (match ?x with _ => _ end) => destruct x
      end ].

Lemma to_api_get (path : string) (params : list (string * value)) :
  to_api (Request GET (api_root ++ path) params None COMMON_HEADERS 15000).
Proof.
  repeat split; try reflexivity; try (cbn; lia).
  - apply incl_refl.
  - right. reflexivity.
Qed.

Lemma in_cart_get (cid : value) (path : string) (params : list (string * value)) :
  in_cart cid (Request GET (api_root ++ path) params None COMMON_HEADERS 15000).
Proof. split; [apply to_api_get|]. split; discriminate. Qed.

Lemma in_cart_search (cid q : value) : in_cart cid (search_request q).
Proof. apply (in_cart_get cid "products/search"). Qed.

Lemma in_cart_detail (cid code : value) : in_cart cid (detail_request code).
Proof. apply (in_cart_get cid ("products/" ++ py_str code)). Qed.

Lemma in_cart_prices (cid : value) : in_cart cid (prices_request cid).
Proof. apply (in_cart_get cid ("users/anonymous/carts/" ++ py_str cid)). Qed.

Lemma in_cart_add (cid code : value) : in_cart cid (add_entry_request cid code 1).
Proof.
  split; [|split; [intros _; exists code; reflexivity | discriminate]].
  repeat split; try reflexivity; try (cbn; lia).
  - apply incl_appl, incl_refl.
  - left. reflexivity.
Qed.

Lemma in_cart_remove (cid : value) : in_cart cid (remove_request cid 0).
Proof.
  split; [|split; [discriminate | reflexivity]].
  repeat split; try reflexivity; try (cbn; lia).
  - apply incl_refl.
  - right. reflexivity.
Qed.

Lemma to_api_create : to_api create_request.
Proof.
  repeat split; try reflexivity; try (cbn; lia).
  - apply incl_refl.
  - left. reflexivity.
Qed.

Lemma requests_find_products (cid upc : value) :
  all_calls (fun c => in_cart cid (c_req c)) (find_products upc).
Proof.
  unfold find_products, occ_search. requests;
    apply all_calls_send; intros out; apply in_cart_search.
Qed.

Lemma requests_pick (cid upc : value) (items : list value) :
  all_calls (fun c => in_cart cid (c_req c)) (pick upc items).
Proof.
  induction items as [|pdt rest IH]; simpl; [apply all_calls_ret|].
  apply all_calls_bind; [apply all_calls_lift|]. intros code.
  destruct (truthy code); simpl; [|exact IH].
  apply all_calls_bind.
  { unfold occ_detail. requests. apply all_calls_send. intros out.
    apply in_cart_detail. }
  intros dj. destruct (truthy dj); [|exact IH].
  apply all_calls_bind; [apply all_calls_lift|].
  intros [|]; [apply all_calls_ret | exact IH].
Qed.

Lemma requests_remove (cid : value) :
  all_calls (fun c => in_cart cid (c_req c)) (cart_remove cid 0).
Proof.
  unfold cart_remove. requests. apply all_calls_send. intros out.
  apply in_cart_remove.
Qed.

Lemma requests_get_prices (cid : value) :
  all_calls (fun c => in_cart cid (c_req c)) (cart_get_prices cid 0).
Proof.
  unfold cart_get_prices. requests. apply all_calls_send. intros out.
  apply in_cart_prices.
Qed.

Lemma requests_read_price (cid upc : value) (name : string) :
  all_calls (fun c => in_cart cid (c_req c)) (read_price cid upc name).
Proof.
  unfold read_price.
  repeat first
    [ apply requests_remove
    | apply requests_get_prices
    | apply all_calls_bind; [|intros ?]
    | solve [auto with requests]
    | match goal with
      | |- all_calls _ (match ?x with _ => _ end) => destruct x
      end ].
Qed.

Lemma requests_item_body (cid upc : value) :
  all_calls (fun c => in_cart cid (c_req c)) (item_body cid upc).
Proof.
  unfold item_body.
  apply all_calls_bind; [apply requests_find_products|]. intros products.
  destruct (negb (truthy products)); [apply all_calls_append|].
  apply all_calls_bind; [apply all_calls_lift|]. intros items.
  apply all_calls_bind; [apply requests_pick|]. intros [picked detail].
  destruct (negb (truthy picked)); [apply all_calls_append|].
  apply all_calls_bind; [apply all_calls_lift|]. intros code.
  apply all_calls_bind; [apply all_calls_lift|]. intros name.
  apply all_calls_bind.
  { unfold cart_add_entry. requests. apply all_calls_send. intros out.
    apply in_cart_add. }
  intros added. destruct (negb added);
    [apply all_calls_append | apply requests_read_price].
Qed.

Lemma requests_scrape (cid : value) (upcs : list value) :
  all_calls (fun c => in_cart cid (c_req c)) (scrape cid upcs).
Proof.
  induction upcs as [|upc rest IH]; simpl; [apply all_calls_ret|].
  apply all_calls_bind; [|intros _; exact IH].
  unfold process_upc. apply all_calls_try; [apply requests_item_body|].
  intros e. apply all_calls_append.
Qed.

Lemma all_calls_weaken (P Q : call -> Prop) {A} (m : M A) :
  (forall c, P c -> Q c) -> all_calls P m -> all_calls Q m.
Proof. intros H Hm w. eapply Forall_impl; [exact H | apply Hm]. Qed.

Lemma requests_cart_create : all_calls (fun c => to_api (c_req c)) cart_create.
Proof.
  unfold cart_create. fold create_request.
  apply all_calls_bind.
  { apply all_calls_send. intros out. apply to_api_create. }
  intros r.
  requests; apply all_calls_send; intros out.
  - apply (to_api_get "users/anonymous/carts").
  - apply (to_api_get "users/anonymous/carts/current").
Qed.

(** X10: every request of a run goes to the API of the platform, under
    [/rest/v2/fsp/], with the common headers, a timeout of at most 15
    seconds and a body only on a POST.  Once the cart is there, the only
    POST adds one unit of a product to the cart of the run and the only
    DELETE removes entry 0 of that cart. *)
Theorem requests_stay_in_the_cart :
  forall (upcs : list value) (w : world),
    Forall (fun c => to_api (c_req c)) (calls (main upcs w))
    /\ forall cid, Forall (fun c => in_cart cid (c_req c)) (calls (scrape cid upcs w)).
Proof.
  intros upcs w. split; [|intros cid; apply requests_scrape].
  revert w. change (all_calls (fun c => to_api (c_req c)) (main upcs)).
  unfold main. apply all_calls_bind; [apply requests_cart_create|].
  intros cid. destruct (negb (truthy cid)); [apply all_calls_raise|].
  apply all_calls_weaken with (P := fun c => in_cart cid (c_req c));
    [intros c H; apply H | apply requests_scrape].
Qed.

End RequestProps.

(** ** Names, identifiers and batches *)

Section NameProps.
Context {PF : PyFloat} {PR : PyRepr} {PL : Platform}.

Lemma lstrip_split (s : string) :
  exists sp,
    list_ascii_of_string s = (sp ++ list_ascii_of_string (lstrip s))%list
    /\ Forall (fun c => is_space c = true) sp.
Proof.
  induction s as [|c r IH]; [exists []; split; [reflexivity | constructor]|].
  simpl. destruct (is_space c) eqn:Hc.
  - destruct IH as (sp & E & Hsp). exists (c :: sp). simpl. rewrite <- E.
    split; [reflexivity | constructor; assumption].
  - exists []. split; [reflexivity | constructor].
Qed.

Lemma lstrip_head (s : string) :
  match list_ascii_of_string (lstrip s) with
  | [] => True
  | c :: _ => is_space c = false
  end.
Proof.
  induction s as [|c r IH]; simpl; [exact I|].
  destruct (is_space c) eqn:Hc; [exact IH | simpl; exact Hc].
Qed.

Lemma last_default {A} (l : list A) (c d : A) : last l c = last (c :: l) d.
Proof.
  destruct l as [|x l]; [reflexivity|].
  change (last (c :: x :: l) d) with (last (x :: l) d).
  revert x. induction l as [|y l IH]; intros x; [reflexivity|].
  change (last (y :: l) c = last (y :: l) d). apply IH.
Qed.

Lemma strip_trimmed (s : string) : trimmed (strip s) = true.
Proof.
  unfold trimmed, strip, str_rev at 1.
  rewrite list_ascii_of_string_of_list_ascii.
  set (t := str_rev (lstrip s)).
  pose proof (lstrip_head t) as Hb.
  destruct (lstrip_split t) as (sp & E & _).
  pose proof (lstrip_head s) as Ha.
  assert (Et : list_ascii_of_string t = rev (list_ascii_of_string (lstrip s))).
  { unfold t, str_rev. apply list_ascii_of_string_of_list_ascii. }
  rewrite Et in E.
  destruct (list_ascii_of_string (lstrip t)) as [|h b']; [reflexivity|].
  apply (f_equal (@rev ascii)) in E. rewrite rev_involutive, rev_app_distr in E.
  destruct (rev (h :: b')) as [|c r] eqn:Hr.
  { apply (f_equal (@List.length ascii)) in Hr.
    rewrite length_rev in Hr. discriminate. }
  rewrite E in Ha. simpl in Ha. rewrite Ha.
  rewrite (last_default r c h), <- Hr. simpl rev. rewrite last_last, Hb.
  reflexivity.
Qed.

Lemma py_strip_trimmed (v : value) (n : string) :
  py_strip v = Ok n -> trimmed n = true.
Proof.
  destruct v; try discriminate. intros H. injection H as <-. apply strip_trimmed.
Qed.

Lemma resolved_name_trimmed (detail picked : value) (n : string) :
  resolved_name detail picked = Ok n -> trimmed n = true.
Proof.
  unfold resolved_name.
  destruct (py_get detail "name") as [dn|e]; [|discriminate]. simpl.
  destruct (if truthy dn then _ else _) as [v|e]; [|discriminate]. simpl.
  apply py_strip_trimmed.
Qed.

Lemma prices_result_trimmed (i : Z) (r : response) (base total : option float)
      (name2 : string) :
  prices_result i r = Ok (Some (base, total, name2)) -> trimmed name2 = true.
Proof.
  unfold prices_result. destruct (negb (ok r)); [discriminate|].
  destruct (py_json r) as [j|e]; [|discriminate]. simpl.
  destruct (py_get j "entries") as [ents0|e]; [|discriminate]. simpl.
  destruct (negb (truthy _)); [discriminate|].
  destruct (py_getitem _ i) as [e0|e]; [|discriminate]. simpl.
  destruct (price_value e0 "basePrice") as [bv|e]; [|discriminate]. simpl.
  destruct (num bv) as [b|e]; [|discriminate]. simpl.
  destruct (price_value e0 "totalPrice") as [tv|e]; [|discriminate]. simpl.
  destruct (num tv) as [t|e]; [|discriminate]. simpl.
  destruct (py_get e0 "product") as [p|e]; [|discriminate]. simpl.
  destruct (py_get _ "name") as [n|e]; [|discriminate]. simpl.
  destruct (py_strip _) as [nm|e] eqn:Hs; [|discriminate]. simpl.
  intros H. injection H as _ _ <-. eapply py_strip_trimmed, Hs.
Qed.

(** X11: the name written for a product, whether it comes from the cart
    entry, from the matched detail or from the picked product, has no white
    space at either end. *)
Theorem names_are_trimmed :
  forall (detail picked upc : value) (name fecha : string) (c : call)
         (got : option prices),
    resolved_name detail picked = Ok name ->
    read c = Ok got ->
    trimmed (nombre_del_producto (price_record upc name got fecha)) = true.
Proof.
  intros detail picked upc name fecha c got Hname Hread.
  pose proof (resolved_name_trimmed _ _ Hname) as Hn.
  destruct got as [[[base total] name2]|]; [|exact Hn].
  cbn [price_record nombre_del_producto].
  destruct (name2 =? "")%string; [exact Hn|].
  unfold read in Hread. destruct (c_out c) as [r|e]; [|discriminate].
  simpl in Hread. eapply prices_result_trimmed, Hread.
Qed.

(** X12: an identifier given as a number matches the records that its
    decimal text matches, except for 0, which matches none. *)
Theorem int_identifier_as_text :
  forall (detail : value) (z : Z),
    upc_matches detail (VInt z)
    = if (z =? 0)%Z then Ok false else upc_matches detail (VStr (str_of_int z)).
Proof.
  intros detail z. unfold upc_matches, clean_digits, py_or. cbn [truthy].
  destruct (z =? 0)%Z; cbn [negb]; [reflexivity|].
  destruct (str_of_int z =? "")%string eqn:E; cbn [negb py_str]; [|reflexivity].
  apply String.eqb_eq in E. rewrite E. reflexivity.
Qed.

Lemma calls_scrape_cons (cid upc : value) (rest : list value) (w : world) :
  calls (scrape cid (upc :: rest) w)
  = (calls (process_upc cid upc w)
     ++ calls (scrape cid rest (final (process_upc cid upc w))))%list
  /\ final (scrape cid (upc :: rest) w)
     = final (scrape cid rest (final (process_upc cid upc w))).
Proof.
  cbn [scrape]. rewrite calls_bind, final_bind.
  destruct (process_upc_records cid upc w) as (-> & _). split; reflexivity.
Qed.

(** X13: processing a list of identifiers in one loop issues the requests
    and appends the records of processing a first part of it and then the
    rest, the second part starting from the platform as the first left it
    (for the same cart). *)
Theorem scrape_in_batches :
  forall (cid : value) (l1 l2 : list value) (w : world),
    let first := scrape cid l1 w in
    let second := scrape cid l2 (final first) in
    calls (scrape cid (l1 ++ l2) w) = (calls first ++ calls second)%list
    /\ rows (scrape cid (l1 ++ l2) w) = (rows first ++ rows second)%list
    /\ final (scrape cid (l1 ++ l2) w) = final second
    /\ result (scrape cid (l1 ++ l2) w) = Ok tt.
Proof.
  intros cid l1 l2 w. cbv zeta.
  split; [|split; [apply scrape_app | split; [apply scrape_app | apply scrape_records]]].
  revert w. induction l1 as [|upc rest IH]; intros w; [reflexivity|].
  change ((upc :: rest) ++ l2)%list with (upc :: (rest ++ l2))%list.
  destruct (calls_scrape_cons cid upc (rest ++ l2) w) as (-> & _).
  destruct (calls_scrape_cons cid upc rest w) as (-> & ->).
  rewrite IH. apply app_assoc.
Qed.

End NameProps.

(** ** The browser executable *)

Lemma str_in_In (x : string) (l : list string) : str_in x l = true <-> In x l.
Proof.
  unfold str_in. rewrite existsb_exists. split.
  - intros (y & Hy & E). apply String.eqb_eq in E. now subst.
  - intros H. exists x. split; [exact H | apply String.eqb_refl].
Qed.

(** X14: [find_headless_shell] returns the path of [headless_shell] in the
    first directory of the walk that holds a file of that name, and raises
    [FileNotFoundError] exactly when no directory of the walk does. *)
Theorem find_headless_shell_first :
  forall walk : list (string * list string * list string),
    match find_headless_shell walk with
    | Ok p =>
      exists before root dirs files rest,
        walk = (before ++ (root, dirs, files) :: rest)%list
        /\ Forall (fun t => ~ In "headless_shell" (snd t)) before
        /\ In "headless_shell" files
        /\ p = path_join root "headless_shell"
    | Raise e =>
      exn_class e = "FileNotFoundError"
      /\ Forall (fun t => ~ In "headless_shell" (snd t)) walk
    end.
Proof.
  induction walk as [|[[root dirs] files] rest IH]; simpl.
  - split; [reflexivity | constructor].
  - destruct (str_in "headless_shell" files) eqn:E.
    + exists [], root, dirs, files, rest.
      repeat split; [constructor | apply str_in_In, E].
    + assert (Hn : ~ In "headless_shell" files).
      { intros H. apply str_in_In in H. congruence. }
      destruct (find_headless_shell rest) as [p|e].
      * destruct IH as (before & root' & dirs' & files' & rest' & -> & Hb & Hin & ->).
        exists ((root, dirs, files) :: before), root', dirs', files', rest'.
        repeat split; [constructor; assumption | assumption].
      * destruct IH as (Ht & Hall). split; [exact Ht|]. constructor; assumption.
Qed.

(** ** The input *)

Section InputProps.
Context {PF : PyFloat} {PR : PyRepr} {PL : Platform}.

Lemma bind_ext {A B} (m : M A) (k k' : A -> M B) (w : world) :
  (forall a w', k a w' = k' a w') -> bind m k w = bind m k' w.
Proof.
  intros H. unfold bind. destruct (result (m w)); [|reflexivity].
  cbv zeta. rewrite H. reflexivity.
Qed.

(** X15: the identifiers are the input itself, or what it holds under
    ["upcs"] when it is an object; an object without that key raises before
    any request.  An input that can be iterated runs as the list of its
    elements (the characters of a text, the keys of an object); one that
    cannot raises once the cart is created, without a record. *)
Theorem input_shapes :
  forall (data : value) (w : world),
    match upcs_of data with
    | Raise e =>
      (exists d, data = VDict d /\ lookup "upcs" d = None)
      /\ result (main_of data w) = Raise e
      /\ calls (main_of data w) = []
    | Ok upcs =>
      (data = upcs \/ exists d, data = VDict d /\ lookup "upcs" d = Some upcs)
      /\ match py_iter upcs with
         | Ok items => main_of data w = main items w
         | Raise e =>
           calls (main_of data w) = calls (cart_create w)
           /\ rows (main_of data w) = []
           /\ exists e', result (main_of data w) = Raise e'
         end
    end.
Proof.
  intros data w. unfold main_of.
  destruct (upcs_of data) as [upcs|e] eqn:Hu.
  - split.
    { destruct data; try (injection Hu as <-; left; reflexivity).
      simpl in Hu. destruct (lookup "upcs" d) eqn:Hl; [|discriminate].
      injection Hu as <-. right. exists d. split; [reflexivity | exact Hl]. }
    rewrite bind_lift_ok.
    destruct (py_iter upcs) as [items|e].
    + unfold main. apply bind_ext. intros cid w'.
      destruct (negb (truthy cid)); [reflexivity | apply bind_lift_ok].
    + rewrite calls_bind, rows_bind, result_bind.
      assert (Hs : rows (cart_create w) = []) by apply silent_cart_create.
      rewrite Hs.
      destruct (result (cart_create w)) as [cid|e0].
      * destruct (negb (truthy cid)); cbn; rewrite app_nil_r;
          (split; [reflexivity|]; split; [reflexivity|]; eexists; reflexivity).
      * rewrite app_nil_r. split; [reflexivity|]. split; [reflexivity|].
        eexists; reflexivity.
  - split.
    { destruct data; try discriminate. simpl in Hu.
      destruct (lookup "upcs" d) eqn:Hl; [discriminate|].
      exists d. split; [reflexivity | exact Hl]. }
    split; reflexivity.
Qed.

End InputProps.

(** ** More runs on the reference runtime *)

Section MoreRuns.
Import Binary64.

(** The first candidate does not match, the second does: both are fetched,
    and the second is added, read and removed. *)
Example run_to_the_second_candidate :
  let upc := VStr "7501008491234" in
  let tempra := Replay.listed "41260002" "Tempra 500 mg 20 tabletas" in
  let w := [Replay.answer (Replay.products_of [tempra; Replay.aspirina]);
            Replay.answer (VDict [("code", VStr "41260002");
                                  ("ean", VStr "7501008499999")]);
            Replay.answer Replay.aspirina_detail;
            Replay.answer VNone;
            Replay.answer
              (Replay.entries_of [Replay.entry "" (VInt 58) (VInt 58)]);
            Replay.answer VNone] in
  map c_op (calls (process_upc (PL := Replay.replay) Replay.cart_id upc w))
  = [OpSearch; OpDetail; OpDetail; OpAddEntry; OpGetPrices; OpRemove]
  /\ map (verdict upc)
         (by_op OpDetail
                (calls (process_upc (PL := Replay.replay) Replay.cart_id upc w)))
     = [Ok false; Ok true]
  /\ rows (process_upc (PL := Replay.replay) Replay.cart_id upc w)
     = [Row upc "58.00" "" "Aspirina 500 mg 40 tabletas" "2024-05-01 10:00:00"].
Proof. cbv zeta. repeat split. Qed.

(** A classification that is not an object makes [upc_matches] raise,
    although a feature value behind it has the digits of the identifier;
    and the number 0 matches nothing, not even the field value "0". *)
Example upc_matches_raises_before_a_match :
  let d := VDict [("classifications",
                   VList [VInt 1;
                          VDict [("features",
                                  VList [VDict [("value", VStr "7501")]])]])] in
  upc_matches d (VStr "7501") = Raise (AttributeError (VInt 1) "get")
  /\ (exists v, field_value d v /\ clean_digits v = clean_digits (VStr "7501"))
  /\ upc_matches (VDict [("ean", VStr "0")]) (VInt 0) = Ok false
  /\ upc_matches (VDict [("ean", VStr "0")]) (VStr "0") = Ok true.
Proof.
  cbv zeta. split; [reflexivity|]. split; [|split; reflexivity].
  exists (VStr "7501"). split; [|reflexivity].
  eapply FV_feature with
    (cl := VDict [("features", VList [VDict [("value", VStr "7501")]])])
    (feat := VDict [("value", VStr "7501")]);
    try reflexivity; simpl; auto.
Qed.

(** X7, witness: the product is found and added, and the cart shows it at
    120 with a total of 99.50. *)
Lemma price_is_recorded_witness :
  let upc := VStr "7501008491234" in
  let c := Call OpGetPrices (prices_request Replay.cart_id)
                (Replay.answer
                   (Replay.entries_of
                      [Replay.entry "Aspirina 40 tabs" (VInt 120) (VStr "$99.50 MXN")])) in
  let got := match read c with Ok g => g | Raise _ => None end in
  by_op OpGetPrices (calls (process_upc (PL := Replay.replay) Replay.cart_id upc
                                        Replay.on_promotion)) = ([] ++ [c])%list
  /\ read c = Ok got
  /\ exists products items picked code before d detail name fecha,
      result (find_products (PL := Replay.replay) upc Replay.on_promotion) = Ok products
      /\ py_iter products = Ok items
      /\ In picked items
      /\ py_get picked "code" = Ok code
      /\ by_op OpDetail (calls (process_upc (PL := Replay.replay) Replay.cart_id upc
                                            Replay.on_promotion))
         = (before ++ [d])%list
      /\ c_req d = detail_request code
      /\ detailed d = Ok detail
      /\ upc_matches detail upc = Ok true
      /\ resolved_name detail picked = Ok name
      /\ rows (process_upc (PL := Replay.replay) Replay.cart_id upc Replay.on_promotion)
         = [price_record upc name got fecha].
Proof.
  cbv zeta.
  split; [reflexivity|]. split; [reflexivity|].
  apply (@price_is_recorded _ _ Replay.replay Replay.cart_id (VStr "7501008491234")
           Replay.on_promotion []
           (Call OpGetPrices (prices_request Replay.cart_id)
                 (Replay.answer
                    (Replay.entries_of
                       [Replay.entry "Aspirina 40 tabs" (VInt 120) (VStr "$99.50 MXN")]))));
    reflexivity.
Defined.

(** X8, witness: the product is found and the platform refuses the add. *)
Lemma refused_add_is_recorded_witness :
  let upc := VStr "7501008491234" in
  let w := [Replay.answer (Replay.products_of [Replay.aspirina]);
            Replay.answer Replay.aspirina_detail; Replay.refusal] in
  let a := Call OpAddEntry (add_entry_request Replay.cart_id (VStr "41260001") 1)
                Replay.refusal in
  by_op OpAddEntry (calls (process_upc (PL := Replay.replay) Replay.cart_id upc w)) = [a]
  /\ refused a = true
  /\ exists products items picked code before d detail name fecha t0,
      result (find_products (PL := Replay.replay) upc w) = Ok products
      /\ py_iter products = Ok items
      /\ In picked items
      /\ py_get picked "code" = Ok code
      /\ by_op OpDetail (calls (process_upc (PL := Replay.replay) Replay.cart_id upc w))
         = (before ++ [d])%list
      /\ c_req d = detail_request code
      /\ detailed d = Ok detail
      /\ upc_matches detail upc = Ok true
      /\ resolved_name detail picked = Ok name
      /\ c_req a = add_entry_request Replay.cart_id code 1
      /\ rows (process_upc (PL := Replay.replay) Replay.cart_id upc w)
         = [Row upc "-" "-" name fecha]
      /\ calls (process_upc (PL := Replay.replay) Replay.cart_id upc w)
         = (t0 ++ [a])%list.
Proof.
  cbv zeta.
  split; [reflexivity|]. split; [reflexivity|].
  apply (@refused_add_is_recorded _ _ Replay.replay Replay.cart_id
           (VStr "7501008491234")
           [Replay.answer (Replay.products_of [Replay.aspirina]);
            Replay.answer Replay.aspirina_detail; Replay.refusal]);
    [left; reflexivity | reflexivity].
Defined.


(** X11, witness: the name of the detail ends with a blank, and the name
    of the cart entry has blanks at both ends. *)
Lemma names_are_trimmed_witness :
  let c := Call OpGetPrices (prices_request Replay.cart_id)
                (Replay.answer
                   (Replay.entries_of
                      [Replay.entry "  Aspirina 40 tabs " (VInt 120) (VInt 120)])) in
  let got := match read c with Ok g => g | Raise _ => None end in
  resolved_name Replay.aspirina_detail Replay.aspirina
  = Ok "Aspirina 500 mg 40 tabletas"
  /\ read c = Ok got
  /\ trimmed (nombre_del_producto
                (price_record (VStr "7501008491234") "Aspirina 500 mg 40 tabletas"
                              got "2024-05-01 10:00:00")) = true.
Proof.
  cbv zeta. split; [reflexivity|]. split; [reflexivity|].
  apply names_are_trimmed
    with (detail := Replay.aspirina_detail) (picked := Replay.aspirina)
         (c := Call OpGetPrices (prices_request Replay.cart_id)
                    (Replay.answer
                       (Replay.entries_of
                          [Replay.entry "  Aspirina 40 tabs " (VInt 120) (VInt 120)])));
    reflexivity.
Defined.

End MoreRuns.
